(** * Settlement of task submissions: a shallow embedding

    The two API routes of the repository,
    [pages/api/tasks/submit.ts] and [pages/api/tasks/official.ts], are
    embedded as functions over an explicit model of the PostgreSQL store
    (tables [tasks], [submissions], [users]) and of the connection that
    runs [BEGIN] / [COMMIT] / [ROLLBACK] on it.

    Conventions.
    - A JS string is the list of its UTF-16 code units.
    - Integer columns are [Z].  [BigInt(x)] is the identity on them,
      [Number(x)] rounds to the nearest IEEE-754 double ([Number_]).
    - Timestamps are milliseconds since the epoch.
    - The store fails on a duplicate primary key only; the other storage
      errors the handlers [catch] are not reachable in the model and are
      left out. *)

From Stdlib Require Import ZArith NArith String Ascii List Lia Bool.
From stdpp Require Import gmap list.

Local Open Scope Z_scope.

(** ** JS strings *)

Abbreviation jsstring := (list N).

Fixpoint js (s : String.string) : jsstring :=
  match s with
  | EmptyString => []
  | String c r => N_of_ascii c :: js r
  end.

(** ECMAScript [WhiteSpace] and [LineTerminator] code points, the ones
    [String.prototype.trim] strips.  All of them are in the BMP, so each is
    one code unit. *)
Definition isWhiteSpace (c : N) : bool :=
  match c with
  | 9 | 10 | 11 | 12 | 13 | 32 | 160 | 5760
  | 8192 | 8193 | 8194 | 8195 | 8196 | 8197 | 8198 | 8199 | 8200 | 8201 | 8202
  | 8232 | 8233 | 8239 | 8287 | 12288 | 65279 => true
  | _ => false
  end%N.

Fixpoint trimStart (s : jsstring) : jsstring :=
  match s with
  | [] => []
  | c :: r => if isWhiteSpace c then trimStart r else s
  end.

Definition trimEnd (s : jsstring) : jsstring := rev (trimStart (rev s)).

Definition trim (s : jsstring) : jsstring := trimEnd (trimStart s).

(** [toLowerCase] restricted to Basic Latin; used to instantiate the
    case-mapping parameter of the development on concrete inputs.  It agrees
    with [String.prototype.toLowerCase] on strings of code units below 128. *)
Definition lower_unit (c : N) : N :=
  if ((65 <=? c) && (c <=? 90))%N then (c + 32)%N else c.

Definition ascii_toLowerCase (s : jsstring) : jsstring := map lower_unit s.

(** ** JS numbers *)

(** [Number(x)] for an integer [x] (a BigInt, or the decimal string the
    driver returns for an int8 column): the nearest double, ties to even.
    Integers of magnitude below 2^53 are exact.  The overflow to [Infinity]
    (magnitude 2^1024 and above) is out of reach of fixed-precision columns
    and is not modelled. *)
Definition Number_ (z : Z) : Z :=
  let a := Z.abs z in
  if a <? 2 ^ 53 then z
  else
    let e := Z.log2 a - 52 in
    let q := a / 2 ^ e in
    let r := a mod 2 ^ e in
    let h := 2 ^ (e - 1) in
    let q' := if r <? h then q
              else if h <? r then q + 1
              else if Z.even q then q else q + 1 in
    Z.sgn z * (q' * 2 ^ e).

(** The magnitude of [Number_ z], for a magnitude [a]. *)
Definition round53 (a : Z) : Z :=
  if a <? 2 ^ 53 then a
  else
    let e := Z.log2 a - 52 in
    let q := a / 2 ^ e in
    let r := a mod 2 ^ e in
    let h := 2 ^ (e - 1) in
    (if r <? h then q
     else if h <? r then q + 1
     else if Z.even q then q else q + 1) * 2 ^ e.

(** ** Rows and tables *)

Record Task := mkTask {
  creator_id : option Z;
  type : jsstring;
  question : jsstring;
  question_type : jsstring;
  choices : option jsstring;
  correct_answer : jsstring;
  reward_per_completion : Z;
  max_acceptances : Z;
  cost : Z;
  fee : Z;
  escrow_balance : Z;
  status : jsstring;
  starts_at : option Z;
  ends_at : option Z
}.

Record Submission := mkSubmission {
  task_id : Z;
  user_id : Z;
  answer : jsstring;
  is_correct : bool;
  awarded_points : Z;
  validated_at : Z
}.

(** [tasks] is keyed by the primary key [id], [users] maps a user id to the
    [points] column; [tasks_id_seq] is the sequence behind [tasks.id]. *)
Record DB := mkDB {
  tasks : gmap Z Task;
  submissions : list Submission;
  users : gmap Z Z;
  tasks_id_seq : Z
}.

Definition set_status (st : jsstring) (t : Task) : Task :=
  mkTask (creator_id t) (type t) (question t) (question_type t) (choices t)
         (correct_answer t) (reward_per_completion t) (max_acceptances t)
         (cost t) (fee t) (escrow_balance t) st (starts_at t) (ends_at t).

Definition set_escrow_balance (e : Z) (t : Task) : Task :=
  mkTask (creator_id t) (type t) (question t) (question_type t) (choices t)
         (correct_answer t) (reward_per_completion t) (max_acceptances t)
         (cost t) (fee t) e (status t) (starts_at t) (ends_at t).

Definition with_tasks (f : gmap Z Task -> gmap Z Task) (d : DB) : DB :=
  mkDB (f (tasks d)) (submissions d) (users d) (tasks_id_seq d).

Definition with_submissions (f : list Submission -> list Submission) (d : DB) : DB :=
  mkDB (tasks d) (f (submissions d)) (users d) (tasks_id_seq d).

Definition with_users (f : gmap Z Z -> gmap Z Z) (d : DB) : DB :=
  mkDB (tasks d) (submissions d) (f (users d)) (tasks_id_seq d).

(** ** The connection and its transaction

    [stored] is what every other connection sees; [view] is what this
    connection sees and writes inside its transaction.  The row lock taken
    by [SELECT ... FOR UPDATE] orders the transactions on one task, so a
    transaction runs against the store left by the previous one. *)
Record Client := mkClient { stored : DB; view : DB }.

Definition Query (A : Type) : Type := Client -> A * Client.

#[global] Instance query_ret : MRet Query := fun A a c => (a, c).

#[global] Instance query_bind : MBind Query :=
  fun A B k m c => let (a, c') := m c in k a c'.

Definition BEGIN : Query unit := fun c => (tt, mkClient (stored c) (stored c)).
Definition ROLLBACK : Query unit := fun c => (tt, mkClient (stored c) (stored c)).
Definition COMMIT : Query unit := fun c => (tt, mkClient (view c) (view c)).

Definition read {A} (f : DB -> A) : Query A := fun c => (f (view c), c).
Definition write (f : DB -> DB) : Query unit :=
  fun c => (tt, mkClient (stored c) (f (view c))).

(** [SELECT * FROM tasks WHERE id = $1 FOR UPDATE] *)
Definition select_task_for_update (id : Z) : Query (option Task) :=
  read (fun d => tasks d !! id).

Definition sub_of (tid uid : Z) (s : Submission) : bool :=
  (task_id s =? tid) && (user_id s =? uid).

(** [SELECT * FROM submissions WHERE task_id = $1 AND user_id = $2] *)
Definition select_submissions (tid uid : Z) : Query (list Submission) :=
  read (fun d => List.filter (sub_of tid uid) (submissions d)).

(** [UPDATE tasks SET status='closed' WHERE id = $1] *)
Definition update_status_closed (id : Z) : Query unit :=
  write (with_tasks (alter (set_status (js "closed")) id)).

(** [UPDATE tasks SET escrow_balance = escrow_balance - $1 WHERE id = $2] *)
Definition update_escrow (amount id : Z) : Query unit :=
  write (with_tasks (alter (fun t => set_escrow_balance (escrow_balance t - amount) t) id)).

(** [INSERT INTO submissions (...) VALUES (...)] *)
Definition insert_submission (s : Submission) : Query unit :=
  write (with_submissions (fun l => l ++ [s])).

(** [UPDATE users SET points = points + $1 WHERE id = $2] *)
Definition update_points (amount id : Z) : Query unit :=
  write (with_users (alter (fun p => p + amount) id)).

Definition correct_of (tid : Z) (s : Submission) : bool :=
  (task_id s =? tid) && is_correct s.

(** [SELECT COUNT( * ) AS cnt FROM submissions WHERE task_id = $1 AND is_correct = true] *)
Definition count_correct (tid : Z) : Query Z :=
  read (fun d => Z.of_nat (length (List.filter (correct_of tid) (submissions d)))).

(** ** Responses *)

Record ApiResp := mkApiResp {
  success : bool;
  error : option jsstring;
  resp_is_correct : option bool;
  resp_awarded_points : option Z;
  taskId : option Z
}.

Record Response := mkResponse { http_status : Z; json : ApiResp }.

Definition failure (code : Z) (msg : String.string) : Response :=
  mkResponse code (mkApiResp false (Some (js msg)) None None None).

Definition settled (ok : bool) (points : Z) : Response :=
  mkResponse 200 (mkApiResp true None (Some ok) (Some points) None).

Definition created (id : Z) : Response :=
  mkResponse 200 (mkApiResp true None None None (Some id)).

(** ** [submit.ts] *)

Module Submit.

(** The clocks the handler reads: [new Date()] in the process and [now()] in
    the database. *)
Record Env := mkEnv { js_now : Z; sql_now : Z }.

(** [auth_user] is what [getUserIdFromAuthHeader] resolved the bearer token
    to ([None] for [null] and for [NaN]); the token service is an external
    collaborator.  [body_task_id] and [body_answer] are the two fields read
    from the JSON body, [None] when absent; the answer is a string, on
    which [String(answer)] is the identity. *)
Record Request := mkRequest {
  method : jsstring;
  auth_user : option Z;
  body_task_id : option Z;
  body_answer : option jsstring
}.

Section Settlement.

(** [String.prototype.toLowerCase]: the Unicode case tables are the
    runtime's, not the repository's, and are taken as a parameter. *)
Variable toLowerCase : jsstring -> jsstring.

(** Lines 69-76: the answer check. *)
Definition validate (qtype submitted correct : jsstring) : bool :=
  if bool_decide (qtype = js "mcq")
  then bool_decide (trim submitted = trim correct)
  else bool_decide (toLowerCase (trim submitted) = toLowerCase (trim correct)).

(** Lines 31-122: the transaction, once the request has been unpacked. *)
Definition settle (env : Env) (userId task_id : Z) (answer : jsstring) : Query Response :=
  BEGIN;;
  taskRes ← select_task_for_update task_id;
  match taskRes with
  | None => ROLLBACK;; mret (failure 404 "task not found")
  | Some task =>
    if negb (bool_decide (status task = js "open"))
    then ROLLBACK;; mret (failure 400 "task is not open")
    else
    let now := js_now env in
    if (match starts_at task with Some s => now <? s | None => false end)
    then ROLLBACK;; mret (failure 400 "task not started yet")
    else
    if (match ends_at task with Some e => e <? now | None => false end)
    then ROLLBACK;; mret (failure 400 "task expired")
    else
    (* a creator id 0 is falsy when the driver returns it as a number; as
       [handler] never lets a user id 0 through, the test on 0 changes
       nothing whichever way the column is read *)
    if (match creator_id task with
        | Some c => negb (c =? 0) && (Number_ c =? Number_ userId)
        | None => false
        end)
    then ROLLBACK;; mret (failure 400 "creator cannot submit their own task")
    else
    exist ← select_submissions task_id userId;
    if 0 <? Z.of_nat (length exist)
    then ROLLBACK;; mret (failure 400 "user already submitted to this task")
    else
    let is_correct := validate (question_type task) answer (correct_answer task) in
    if is_correct then
      let reward := reward_per_completion task in
      let escrowBalance := escrow_balance task in
      if escrowBalance <? reward then
        update_status_closed task_id;;
        ROLLBACK;;
        mret (failure 400 "insufficient escrow to pay reward; task closed")
      else
        update_escrow reward task_id;;
        insert_submission (mkSubmission task_id userId answer true reward (sql_now env));;
        update_points reward userId;;
        cnt ← count_correct task_id;
        let correctCount := Number_ cnt in
        (if Number_ (max_acceptances task) <=? correctCount
         then update_status_closed task_id
         else mret tt);;
        COMMIT;;
        mret (settled true (Number_ reward))
    else
      insert_submission (mkSubmission task_id userId answer false 0 (sql_now env));;
      COMMIT;;
      mret (settled false 0)
  end.

(** Lines 18-29: the request is unpacked, then settled. *)
Definition handler (env : Env) (req : Request) : Query Response :=
  if negb (bool_decide (method req = js "POST"))
  then mret (failure 405 "Method not allowed")
  else
  match auth_user req with
  | None | Some 0 => mret (failure 401 "Unauthorized")
  | Some userId =>
    match body_task_id req, body_answer req with
    | None, _ | Some 0, _ | _, None =>
        mret (failure 400 "task_id and answer are required")
    | Some task_id, Some answer => settle env userId task_id answer
    end
  end.

(** One call of the route against the store: the response, and the store
    the call leaves behind. *)
Definition submit (env : Env) (req : Request) (db : DB) : Response * DB :=
  let (res, c) := handler env req (mkClient db db) in (res, stored c).

End Settlement.

End Submit.

(** ** [official.ts] *)

Module Official.

(** What the handler reads: the method, [process.env.ADMIN_SECRET], the
    [x-admin-secret] header and the fields it destructures from the JSON
    body ([None] for an absent field).  The handler looks at a [choices]
    value only through its truthiness and through [JSON.stringify]. *)
Record Value := mkValue { truthy : bool; stringified : jsstring }.

Record Request := mkRequest {
  method : jsstring;
  ADMIN_SECRET : option jsstring;
  x_admin_secret : option jsstring;
  question : option jsstring;
  question_type : option jsstring;
  choices : option Value;
  correct_answer : option jsstring;
  reward_per_completion : option Z;
  max_acceptances : option Z;
  starts_at : option Z;
  ends_at : option Z
}.

(** [!s] for an optional string: absent or empty. *)
Definition falsy (s : option jsstring) : bool :=
  match s with
  | None | Some [] => true
  | Some _ => false
  end.

(** Line 41: [choices ? JSON.stringify(choices) : null]. *)
Definition choicesJson (choices : option Value) : option jsstring :=
  match choices with
  | Some v => if truthy v then Some (stringified v) else None
  | None => None
  end.

(** [INSERT INTO tasks (...) VALUES (...) RETURNING id]: the id is drawn
    from the sequence; a key already in the table is a storage error. *)
Definition insert_task (t : Task) (db : DB) : option Z * DB :=
  let id := tasks_id_seq db in
  match tasks db !! id with
  | Some _ => (None, mkDB (tasks db) (submissions db) (users db) (id + 1))
  | None => (Some id, mkDB (<[id := t]> (tasks db)) (submissions db) (users db) (id + 1))
  end.

Definition handler (req : Request) (db : DB) : Response * DB :=
  if negb (bool_decide (method req = js "POST"))
  then (failure 405 "Method not allowed", db)
  else
  let adminSecret := ADMIN_SECRET req in
  if falsy adminSecret then (failure 500 "Server not configured", db)
  else
  let provided := x_admin_secret req in
  if negb (bool_decide (provided = adminSecret))
  then (failure 403 "Forbidden: invalid admin secret", db)
  else
  let reward_per_completion := default 0 (reward_per_completion req) in
  let max_acceptances := default 1 (max_acceptances req) in
  if falsy (question req) || falsy (question_type req) || falsy (correct_answer req)
  then (failure 400 "question, question_type and correct_answer are required", db)
  else
  let row :=
    mkTask None (js "official") (default [] (question req))
           (default [] (question_type req)) (choicesJson (choices req))
           (default [] (correct_answer req))
           reward_per_completion max_acceptances 0 0 0 (js "open")
           (starts_at req) (ends_at req) in
  match insert_task row db with
  | (Some id, db') => (created id, db')
  | (None, db') => (failure 500 "DB error", db')
  end.

End Official.

(** ** The outcomes of the settlement, as the responses that carry them *)

Definition NotFound : Response := failure 404 "task not found".
Definition TaskClosed : Response := failure 400 "task is not open".
Definition NotStarted : Response := failure 400 "task not started yet".
Definition Expired : Response := failure 400 "task expired".
Definition SelfSubmission : Response :=
  failure 400 "creator cannot submit their own task".
Definition AlreadySubmitted : Response :=
  failure 400 "user already submitted to this task".
Definition InsufficientEscrow : Response :=
  failure 400 "insufficient escrow to pay reward; task closed".

(** [submit(taskId, userId, answer)]: one call of the route by an
    authenticated user, with both body fields present. *)
Definition submit_call (toLowerCase : jsstring -> jsstring) (env : Submit.Env)
    (userId task_id : Z) (answer : jsstring) (db : DB) : Response * DB :=
  Submit.submit toLowerCase env
    (Submit.mkRequest (js "POST") (Some userId) (Some task_id) (Some answer)) db.

(** The guards of lines 35-66 of [submit.ts] without their rollbacks: the
    response of the first one that fires, [None] when the handler goes on
    to check the answer. *)
Definition guards (env : Submit.Env) (userId task_id : Z) (db : DB) : option Response :=
  match tasks db !! task_id with
  | None => Some NotFound
  | Some task =>
    if negb (bool_decide (status task = js "open")) then Some TaskClosed
    else if (match starts_at task with Some s => Submit.js_now env <? s | None => false end)
    then Some NotStarted
    else if (match ends_at task with Some e => e <? Submit.js_now env | None => false end)
    then Some Expired
    else if (match creator_id task with
             | Some c => negb (c =? 0) && (Number_ c =? Number_ userId)
             | None => false
             end)
    then Some SelfSubmission
    else if 0 <? Z.of_nat (length (List.filter (sub_of task_id userId) (submissions db)))
    then Some AlreadySubmitted
    else None
  end.

(** The six preconditions as the specification lists them, in its order and
    in its words: the error of the first one that is violated. *)
Definition precondition_failure (now userId task_id : Z) (db : DB) : option Response :=
  match tasks db !! task_id with
  | None => Some NotFound
  | Some task =>
    if negb (bool_decide (status task = js "open")) then Some TaskClosed
    else if negb (from_option (fun s => s <=? now) true (starts_at task))
    then Some NotStarted
    else if negb (from_option (fun e => now <=? e) true (ends_at task))
    then Some Expired
    else if from_option (fun c => c =? userId) false (creator_id task)
    then Some SelfSubmission
    else if existsb (sub_of task_id userId) (submissions db)
    then Some AlreadySubmitted
    else None
  end.

(** An integer that a JS number holds exactly. *)
Definition js_number (z : Z) : Prop := Number_ z = z.

(** The creator of task [task_id], when it has one, is a JS number. *)
Definition creator_js_number (task_id : Z) (db : DB) : Prop :=
  forall task c, tasks db !! task_id = Some task -> creator_id task = Some c -> js_number c.

(** What the store holds after an award (lines 91-111) and after a wrong
    answer (lines 115-120). *)
Definition correct_count (task_id : Z) (l : list Submission) : Z :=
  Z.of_nat (length (List.filter (correct_of task_id) l)).

Definition awarded_submission (env : Submit.Env) (userId task_id : Z)
    (answer : jsstring) (task : Task) : Submission :=
  mkSubmission task_id userId answer true (reward_per_completion task)
               (Submit.sql_now env).

Definition wrong_submission (env : Submit.Env) (userId task_id : Z)
    (answer : jsstring) : Submission :=
  mkSubmission task_id userId answer false 0 (Submit.sql_now env).

Definition award (env : Submit.Env) (userId task_id : Z) (answer : jsstring)
    (task : Task) (db : DB) : DB :=
  let reward := reward_per_completion task in
  let s := awarded_submission env userId task_id answer task in
  let debited :=
    alter (fun t => set_escrow_balance (escrow_balance t - reward) t) task_id (tasks db) in
  mkDB (if Number_ (max_acceptances task)
           <=? Number_ (correct_count task_id (submissions db ++ [s]))
        then alter (set_status (js "closed")) task_id debited
        else debited)
       (submissions db ++ [s])
       (alter (fun p => p + reward) userId (users db))
       (tasks_id_seq db).

Definition record_wrong (env : Submit.Env) (userId task_id : Z) (answer : jsstring)
    (db : DB) : DB :=
  mkDB (tasks db)
       (submissions db ++ [wrong_submission env userId task_id answer])
       (users db) (tasks_id_seq db).

(** ** Sequences of calls *)

(** The stores left by each call of a sequence, in order. *)
Fixpoint trace (toLowerCase : jsstring -> jsstring)
    (ops : list (Submit.Env * Submit.Request)) (db : DB) : list DB :=
  match ops with
  | [] => []
  | (env, req) :: rest =>
      let db' := snd (Submit.submit toLowerCase env req db) in
      db' :: trace toLowerCase rest db'
  end.

(** The store left by the last call of a sequence. *)
Definition run (toLowerCase : jsstring -> jsstring)
    (ops : list (Submit.Env * Submit.Request)) (db : DB) : DB :=
  fold_left (fun d op => snd (Submit.submit toLowerCase (fst op) (snd op) d)) ops db.

(** ** Invariants of the store *)

Definition escrow_nonneg (db : DB) : Prop :=
  forall id task, tasks db !! id = Some task -> 0 <= escrow_balance task.

Definition one_submission (db : DB) : Prop :=
  forall tid uid, (length (List.filter (sub_of tid uid) (submissions db)) <= 1)%nat.

(** ** Trimming, in the words of the specification *)

Definition clean_start (t : jsstring) : bool :=
  match t with
  | [] => true
  | c :: _ => negb (isWhiteSpace c)
  end.

(** [t] is [s] without its surrounding whitespace. *)
Definition trimmed_of (s t : jsstring) : Prop :=
  exists l r, s = l ++ t ++ r /\
    forallb isWhiteSpace l = true /\ forallb isWhiteSpace r = true /\
    clean_start t = true /\ clean_start (rev t) = true.

(** ** Concrete stores and requests

    The scenario of the specification: a task with reward 10, escrow 25 and
    five acceptances, created by user 7, answered by users 2 to 5. *)

Definition POST : jsstring := js "POST".

Definition call (userId task_id : Z) (answer : String.string) : Submit.Request :=
  Submit.mkRequest POST (Some userId) (Some task_id) (Some (js answer)).

Definition demo_task (qtype correct : String.string) (reward maxacc escrow : Z) : Task :=
  mkTask (Some 7) (js "user") (js "q") (js qtype) None (js correct)
         reward maxacc 0 0 escrow (js "open") None None.

Definition demo_db (t : Task) : DB :=
  mkDB {[ 1 := t ]} []
       (list_to_map [(2, 0); (3, 0); (4, 0); (5, 0); (7, 0)]) 2.

Definition noon : Submit.Env := Submit.mkEnv 1000 1000.

Definition scenario_db : DB := demo_db (demo_task "mcq" " B " 10 5 25).

Definition scenario_ops : list (Submit.Env * Submit.Request) :=
  [(noon, call 2 1 "B"); (noon, call 3 1 "B"); (noon, call 4 1 "B");
   (noon, call 5 1 "B")].

Definition run_ops : list (Submit.Env * Submit.Request) -> DB -> DB :=
  run ascii_toLowerCase.

(** The store after the first two awards of the scenario: escrow 5, reward
    10, two correct submissions. *)
Definition drained_db : DB := run_ops (firstn 2 scenario_ops) scenario_db.

Definition drained_task : Task := demo_task "mcq" " B " 10 5 5.

(** A task whose reward is 2^53 + 1, fully funded. *)
Definition huge_reward : Z := 9007199254740993.
Definition huge_db : DB := demo_db (demo_task "mcq" "B" huge_reward 5 huge_reward).

(** A task with one acceptance, and the store after user 2 took it. *)
Definition single_db : DB := demo_db (demo_task "short" "Paris" 10 1 25).
Definition single_ops : list (Submit.Env * Submit.Request) :=
  [(noon, call 2 1 "paris "); (noon, call 3 1 "PARIS")].
Definition taken_db : DB := run_ops (firstn 1 single_ops) single_db.

(** Ingestion requests: a well-formed one, and one with a negative reward. *)
Definition official_request (reward maxacc : option Z) : Official.Request :=
  Official.mkRequest POST (Some (js "s3cret")) (Some (js "s3cret"))
    (Some (js "Capital of France?")) (Some (js "short")) None (Some (js "Paris"))
    reward maxacc None None.

(** The store after the ingestion of a task with reward 10. *)
Definition ingested_db : DB :=
  snd (Official.handler (official_request (Some 10) (Some 5)) scenario_db).

(** ** [getUserIdFromAuthHeader] ([submit.ts], lines 8-16) *)

(** [s.split(' ')]: the pieces of [s] between its spaces (U+0020); the empty
    string gives the one empty piece. *)
Fixpoint split_space (s : jsstring) : list jsstring :=
  match s with
  | [] => [[]]
  | c :: r =>
      if (c =? 32)%N then [] :: split_space r
      else match split_space r with
           | p :: ps => (c :: p) :: ps
           | [] => [[c]]
           end
  end.

(** [parts.join(' ')] *)
Fixpoint join_space (parts : list jsstring) : jsstring :=
  match parts with
  | [] => []
  | [p] => p
  | p :: ps => p ++ 32%N :: join_space ps
  end.

Definition no_space (s : jsstring) : bool := forallb (fun c => negb (c =? 32)%N) s.

Definition spaces (s : jsstring) : nat := length (List.filter (fun c => (c =? 32)%N) s).

Section Auth.

(** The token service and the conversion of the id it returns are not the
    repository's: [getUser token] is the [data.user.id] of
    [supabaseAdmin.auth.getUser(token)], [None] when the call reports an
    error or no user; [NumberOf] is [Number(...)] on such an id. *)
Variables (Id Num : Type).
Variable getUser : jsstring -> option Id.
Variable NumberOf : Id -> Num.

Definition getUserIdFromAuthHeader (authHeader : option jsstring) : option Num :=
  match authHeader with
  | None | Some [] => None
  | Some header =>
      let parts := split_space header in
      if negb (length parts =? 2)%nat then None
      else
        let token := nth 1 parts [] in
        match getUser token with
        | None => None
        | Some id => Some (NumberOf id)
        end
  end.

End Auth.

(** ** Calls of the two routes, interleaved *)

Inductive Call :=
  | Submitted (env : Submit.Env) (req : Submit.Request)
  | Ingested (req : Official.Request).

Definition step (toLowerCase : jsstring -> jsstring) (c : Call) (db : DB) : DB :=
  match c with
  | Submitted env req => snd (Submit.submit toLowerCase env req db)
  | Ingested req => snd (Official.handler req db)
  end.

Definition run_calls (toLowerCase : jsstring -> jsstring) (cs : list Call) (db : DB) : DB :=
  fold_left (fun d c => step toLowerCase c d) cs db.

(** The row that [official.ts] inserts (lines 35-51). *)
Definition official_row (req : Official.Request) : Task :=
  mkTask None (js "official") (default [] (Official.question req))
         (default [] (Official.question_type req))
         (Official.choicesJson (Official.choices req))
         (default [] (Official.correct_answer req))
         (default 0 (Official.reward_per_completion req))
         (default 1 (Official.max_acceptances req)) 0 0 0 (js "open")
         (Official.starts_at req) (Official.ends_at req).

(** ** The submissions as a ledger *)

Definition total_awarded (l : list Submission) : Z :=
  fold_right (fun s acc => awarded_points s + acc) 0 l.

(** Points paid out of task [id], and points earned by user [uid]. *)
Definition paid (id : Z) (l : list Submission) : Z :=
  total_awarded (List.filter (fun s => task_id s =? id) l).

Definition earned (uid : Z) (l : list Submission) : Z :=
  total_awarded (List.filter (fun s => user_id s =? uid) l).

(** Every submission is for a task of the store. *)
Definition submissions_have_tasks (db : DB) : Prop :=
  forall s, In s (submissions db) -> is_Some (tasks db !! task_id s).

(** What the handler keeps whatever [max_acceptances] is: at most
    [max 1 max_acceptances] correct submissions, and a task that has one
    and has reached [max_acceptances] is closed. *)
Definition acceptances_capped (db : DB) : Prop :=
  forall id task, tasks db !! id = Some task ->
    correct_count id (submissions db) <= Z.max 1 (max_acceptances task) /\
    (1 <= correct_count id (submissions db) ->
     max_acceptances task <= correct_count id (submissions db) ->
     status task = js "closed").

(** The columns of a task that no route writes after the insert. *)
Definition same_terms (t t' : Task) : Prop :=
  creator_id t' = creator_id t /\ type t' = type t /\ question t' = question t /\
  question_type t' = question_type t /\ choices t' = choices t /\
  correct_answer t' = correct_answer t /\
  reward_per_completion t' = reward_per_completion t /\
  max_acceptances t' = max_acceptances t /\ cost t' = cost t /\ fee t' = fee t /\
  starts_at t' = starts_at t /\ ends_at t' = ends_at t.

(** ** The six preconditions, read on their own

    The list of the specification with each check as a proposition about
    the store, decided, and none of the handler's tests: the comparison of
    the user with the creator is a parameter, so that it can be read as
    equality of the ids or, as the handler has it, as equality of the JS
    numbers they convert to. *)

Definition has_submission (tid uid : Z) (l : list Submission) : Prop :=
  Exists (fun s => task_id s = tid /\ user_id s = uid) l.

Definition same_id (c u : Z) : bool := bool_decide (c = u).

Definition same_number (c u : Z) : bool := bool_decide (Number_ c = Number_ u).

Definition first_violation (same : Z -> Z -> bool) (now userId tid : Z) (db : DB)
    : option Response :=
  match tasks db !! tid with
  | None => Some NotFound
  | Some task =>
    if bool_decide (status task <> js "open") then Some TaskClosed
    else if from_option (fun s => bool_decide (now < s)) false (starts_at task)
    then Some NotStarted
    else if from_option (fun e => bool_decide (e < now)) false (ends_at task)
    then Some Expired
    else if from_option (fun c => same c userId) false (creator_id task)
    then Some SelfSubmission
    else if bool_decide (has_submission tid userId (submissions db))
    then Some AlreadySubmitted
    else None
  end.

(** ** More concrete data *)

(** Two ids that are different integers and the same JS number: the
    creator 2^53 + 1 and the user 2^53. *)
Definition twin_creator : Z := 9007199254740993.
Definition twin_user : Z := 9007199254740992.

Definition twin_db : DB :=
  mkDB {[ 1 := mkTask (Some twin_creator) (js "user") (js "q") (js "mcq") None (js "B")
                      10 5 0 0 25 (js "open") None None ]}
       [] (list_to_map [(twin_user, 0)]) 2.

(** An ingestion request whose [choices] is a falsy value (the number 0). *)
Definition falsy_choices_request : Official.Request :=
  Official.mkRequest POST (Some (js "s3cret")) (Some (js "s3cret"))
    (Some (js "Capital of France?")) (Some (js "short"))
    (Some (Official.mkValue false (js "0"))) (Some (js "Paris"))
    None None None None.

Definition falsy_choices_db : DB :=
  snd (Official.handler falsy_choices_request scenario_db).


Definition bearer (token : String.string) : option jsstring :=
  Some (js "Bearer" ++ 32%N :: js token).

(** A token service that knows one token. *)
Definition demo_getUser (token : jsstring) : option Z :=
  if bool_decide (token = js "tok42") then Some 42 else None.

Definition default_request : Official.Request := official_request None None.

Definition default_db : DB := snd (Official.handler default_request scenario_db).

Definition mixed_calls : list Call :=
  [Submitted noon (call 2 1 "B"); Ingested (official_request (Some 10) (Some 5));
   Submitted noon (call 3 2 "paris"); Submitted noon (call 3 1 "B");
   Submitted noon (call 4 1 "B"); Submitted noon (call 2 1 "B")].

(** A task ingested with [max_acceptances] 0 and the default reward, then
    two correct answers on it. *)
Definition zero_calls : list Call :=
  [Ingested (official_request None (Some 0));
   Submitted noon (call 2 2 "paris"); Submitted noon (call 3 2 "Paris")].

(** The store after that ingestion, and after the first answer. *)
Definition zero_ingested_db : DB :=
  run_calls ascii_toLowerCase (firstn 1 zero_calls) scenario_db.

Definition zero_settled_db : DB :=
  snd (Submit.submit ascii_toLowerCase noon (call 2 2 "paris") zero_ingested_db).

(** The closed task of [taken_db]. *)
Definition taken_task : Task :=
  mkTask (Some 7) (js "user") (js "q") (js "short") None (js "Paris")
         10 1 0 0 15 (js "closed") None None.

(** A well-formed ingestion request that does not carry the secret. *)
Definition forged_request : Official.Request :=
  Official.mkRequest POST (Some (js "s3cret")) (Some (js "guess"))
    (Some (js "Capital of France?")) (Some (js "short")) None (Some (js "Paris"))
    None None None None.

(** ** [Number_]: exact on safe integers, monotone everywhere *)

Lemma Number_round53 z : Number_ z = Z.sgn z * round53 (Z.abs z).
Proof.
  unfold Number_, round53. destruct (Z.abs z <? 2 ^ 53); [|reflexivity].
  symmetry. rewrite Z.mul_comm. apply Z.abs_sgn.
Qed.

Lemma Number_safe z : Z.abs z < 2 ^ 53 -> Number_ z = z.
Proof.
  intros H. unfold Number_.
  destruct (Z.ltb_spec (Z.abs z) (2 ^ 53)); [reflexivity | lia].
Qed.

(** Shape of a magnitude [a >= 2^53]: with [e = log2 a - 52], the quotient
    [a / 2^e] has exactly 53 bits. *)
Lemma big_shape a :
  2 ^ 53 <= a ->
  let e := Z.log2 a - 52 in
  1 <= e /\ 0 < 2 ^ e /\ 2 ^ 52 <= a / 2 ^ e < 2 ^ 53.
Proof.
  intros Ha e.
  assert (Hpos : 0 < a) by lia.
  assert (Hl : 53 <= Z.log2 a).
  { replace 53 with (Z.log2 (2 ^ 53)) by (apply Z.log2_pow2; lia).
    apply Z.log2_le_mono; lia. }
  destruct (Z.log2_spec a Hpos) as [Hlo Hhi].
  assert (He : 1 <= e) by (unfold e; lia).
  assert (Hp : 0 < 2 ^ e) by (apply Z.pow_pos_nonneg; lia).
  assert (E1 : 2 ^ Z.log2 a = 2 ^ 52 * 2 ^ e).
  { rewrite <- Z.pow_add_r by lia. f_equal. unfold e. lia. }
  assert (E2 : 2 ^ Z.succ (Z.log2 a) = 2 ^ 53 * 2 ^ e).
  { rewrite <- Z.pow_add_r by lia. f_equal. unfold e. lia. }
  repeat split; try assumption.
  - apply Z.div_le_lower_bound; lia.
  - apply Z.div_lt_upper_bound; lia.
Qed.

Lemma round53_bounds a :
  2 ^ 53 <= a ->
  let e := Z.log2 a - 52 in
  2 ^ 52 * 2 ^ e <= round53 a <= 2 ^ 53 * 2 ^ e.
Proof.
  intros Ha e. destruct (big_shape a Ha) as (He & Hp & Hq). fold e in Hq.
  unfold round53. destruct (Z.ltb_spec a (2 ^ 53)); [lia|]. fold e.
  set (q := a / 2 ^ e) in *.
  destruct (a mod 2 ^ e <? 2 ^ (e - 1)); [nia|].
  destruct (2 ^ (e - 1) <? a mod 2 ^ e); [nia|].
  destruct (Z.even q); nia.
Qed.

Lemma round53_nonneg a : 0 <= a -> 0 <= round53 a.
Proof.
  intros Ha. destruct (Z.lt_ge_cases a (2 ^ 53)) as [H|H].
  - unfold round53. destruct (Z.ltb_spec a (2 ^ 53)); lia.
  - pose proof (round53_bounds a H) as [Hb _].
    destruct (big_shape a H) as (_ & Hp & _). nia.
Qed.

Lemma round53_mono a b : 0 <= a -> a <= b -> round53 a <= round53 b.
Proof.
  intros Ha Hab.
  destruct (Z.lt_ge_cases b (2 ^ 53)) as [Hb|Hb].
  { unfold round53.
    destruct (Z.ltb_spec a (2 ^ 53)); destruct (Z.ltb_spec b (2 ^ 53)); lia. }
  destruct (Z.lt_ge_cases a (2 ^ 53)) as [Ha'|Ha'].
  { pose proof (round53_bounds b Hb) as [Hlb _].
    destruct (big_shape b Hb) as (He & Hp & _).
    assert (round53 a = a) as ->.
    { unfold round53. destruct (Z.ltb_spec a (2 ^ 53)); lia. }
    cbv zeta in Hlb.
    assert (2 ^ 1 <= 2 ^ (Z.log2 b - 52)) by (apply Z.pow_le_mono_r; lia).
    assert (2 ^ 53 = 2 ^ 52 * 2 ^ 1) by reflexivity.
    nia. }
  assert (Hle : Z.log2 a - 52 <= Z.log2 b - 52).
  { pose proof (Z.log2_le_mono a b Hab). lia. }
  destruct (Z.eq_dec (Z.log2 a - 52) (Z.log2 b - 52)) as [Heq|Hne].
  - destruct (big_shape a Ha') as (He & Hp & Hqa).
    destruct (big_shape b Hb) as (_ & _ & Hqb).
    unfold round53.
    destruct (Z.ltb_spec a (2 ^ 53)); [lia|].
    destruct (Z.ltb_spec b (2 ^ 53)); [lia|].
    rewrite <- Heq in *. set (e := Z.log2 a - 52) in *.
    pose proof (Z.div_mod a (2 ^ e) ltac:(lia)) as Da.
    pose proof (Z.div_mod b (2 ^ e) ltac:(lia)) as Db.
    pose proof (Z.mod_pos_bound a (2 ^ e) Hp) as Ra.
    pose proof (Z.mod_pos_bound b (2 ^ e) Hp) as Rb.
    set (qa := a / 2 ^ e) in *. set (qb := b / 2 ^ e) in *.
    set (ra := a mod 2 ^ e) in *. set (rb := b mod 2 ^ e) in *.
    set (h := 2 ^ (e - 1)).
    apply Z.mul_le_mono_nonneg_r; [lia|].
    assert (Hq : qa <= qb) by (apply Z.div_le_mono; lia).
    destruct (Z.eq_dec qa qb) as [Hqq|Hqq].
    + assert (Hr : ra <= rb) by nia. rewrite Hqq.
      destruct (Z.ltb_spec ra h); destruct (Z.ltb_spec rb h);
        destruct (Z.ltb_spec h ra); destruct (Z.ltb_spec h rb);
        destruct (Z.even qb); lia.
    + destruct (ra <? h); destruct (rb <? h); destruct (h <? ra);
        destruct (h <? rb); destruct (Z.even qa); destruct (Z.even qb); lia.
  - pose proof (round53_bounds a Ha') as [_ Hua].
    pose proof (round53_bounds b Hb) as [Hlb _].
    cbv zeta in Hua, Hlb.
    set (ea := Z.log2 a - 52) in *. set (eb := Z.log2 b - 52) in *.
    destruct (big_shape a Ha') as (He & _ & _). fold ea in He.
    assert (2 ^ 53 * 2 ^ ea <= 2 ^ 52 * 2 ^ eb); [|lia].
    rewrite <- !Z.pow_add_r by lia.
    apply Z.pow_le_mono_r; lia.
Qed.

Lemma Number_mono x y : x <= y -> Number_ x <= Number_ y.
Proof.
  intros Hxy. rewrite !Number_round53.
  destruct (Z.lt_ge_cases x 0) as [Hx|Hx]; destruct (Z.lt_ge_cases y 0) as [Hy|Hy].
  - rewrite !Z.sgn_neg, !Z.abs_neq by lia.
    pose proof (round53_mono (- y) (- x) ltac:(lia) ltac:(lia)). lia.
  - pose proof (round53_nonneg (Z.abs x) (Z.abs_nonneg x)).
    pose proof (round53_nonneg (Z.abs y) (Z.abs_nonneg y)).
    rewrite Z.sgn_neg by lia.
    assert (0 <= Z.sgn y) by (destruct y; simpl; lia). nia.
  - lia.
  - rewrite !Z.abs_eq by lia.
    pose proof (round53_mono x y Hx Hxy).
    pose proof (round53_nonneg x Hx).
    destruct (Z.eq_dec x 0) as [->|]; [|rewrite Z.sgn_pos by lia].
    + rewrite Z.sgn_0. destruct (Z.eq_dec y 0) as [->|]; [rewrite Z.sgn_0; lia|].
      rewrite Z.sgn_pos by lia. pose proof (round53_nonneg y Hy). lia.
    + rewrite Z.sgn_pos by lia. lia.
Qed.

Lemma Number_nonzero z : Number_ z = 0 -> z = 0.
Proof.
  intros H. destruct (Z.lt_ge_cases (Z.abs z) (2 ^ 53)) as [Hs|Hb].
  - rewrite (Number_safe z Hs) in H. exact H.
  - rewrite Number_round53 in H.
    pose proof (round53_bounds (Z.abs z) Hb) as [Hlo _]. cbv zeta in Hlo.
    destruct (big_shape (Z.abs z) Hb) as (_ & Hp & _).
    assert (0 < round53 (Z.abs z)) by nia.
    destruct z; cbn [Z.sgn] in H; lia.
Qed.

(** ** Running the handler *)

Section Run.

Variable toLowerCase : jsstring -> jsstring.

Ltac run_query :=
  unfold Submit.settle, mbind, query_bind, mret, query_ret, BEGIN, ROLLBACK,
    COMMIT, select_task_for_update, select_submissions, update_status_closed,
    update_escrow, insert_submission, update_points, count_correct, read, write;
  cbn [stored view].

Lemma submit_call_settle env u tid a db :
  u <> 0 -> tid <> 0 ->
  submit_call toLowerCase env u tid a db =
  let (res, c) := Submit.settle toLowerCase env u tid a (mkClient db db) in
  (res, stored c).
Proof.
  intros Hu Ht. unfold submit_call, Submit.submit, Submit.handler.
  cbn [Submit.method Submit.auth_user Submit.body_task_id Submit.body_answer].
  destruct u; [congruence| |]; (destruct tid; [congruence| |]); reflexivity.
Qed.

Lemma settle_rejected env u tid a db r :
  guards env u tid db = Some r ->
  Submit.settle toLowerCase env u tid a (mkClient db db) = (r, mkClient db db).
Proof.
  unfold guards. run_query.
  destruct (tasks db !! tid) as [t|]; [|intros [= <-]; reflexivity].
  destruct (negb _); [intros [= <-]; reflexivity|].
  destruct (match starts_at t with Some _ => _ | None => _ end);
    [intros [= <-]; reflexivity|].
  destruct (match ends_at t with Some _ => _ | None => _ end);
    [intros [= <-]; reflexivity|].
  destruct (match creator_id t with Some _ => _ | None => _ end);
    [intros [= <-]; reflexivity|].
  destruct (0 <? _); [intros [= <-]; reflexivity|discriminate].
Qed.

Lemma settle_passed env u tid a db t :
  tasks db !! tid = Some t ->
  guards env u tid db = None ->
  Submit.settle toLowerCase env u tid a (mkClient db db) =
  if Submit.validate toLowerCase (question_type t) a (correct_answer t) then
    if escrow_balance t <? reward_per_completion t
    then (InsufficientEscrow, mkClient db db)
    else (settled true (Number_ (reward_per_completion t)),
          mkClient (award env u tid a t db) (award env u tid a t db))
  else (settled false 0,
        mkClient (record_wrong env u tid a db) (record_wrong env u tid a db)).
Proof.
  intros Ht. unfold guards. run_query. rewrite Ht.
  destruct (negb _); [discriminate|].
  destruct (match starts_at t with Some _ => _ | None => _ end); [discriminate|].
  destruct (match ends_at t with Some _ => _ | None => _ end); [discriminate|].
  destruct (match creator_id t with Some _ => _ | None => _ end); [discriminate|].
  destruct (0 <? _); [discriminate|]. intros _.
  destruct (Submit.validate _ _ _ _); [|reflexivity].
  destruct (escrow_balance t <? reward_per_completion t); [reflexivity|].
  unfold award, correct_count, with_tasks, with_submissions, with_users.
  cbn [tasks submissions users tasks_id_seq].
  destruct (Number_ (max_acceptances t) <=? _); reflexivity.
Qed.

(** The outcome of a call, by cases. *)
Lemma submit_call_rejected env u tid a db r :
  u <> 0 -> tid <> 0 ->
  guards env u tid db = Some r ->
  submit_call toLowerCase env u tid a db = (r, db).
Proof.
  intros Hu Ht Hg. rewrite submit_call_settle by assumption.
  rewrite (settle_rejected _ _ _ _ _ _ Hg). reflexivity.
Qed.

Lemma submit_call_passed env u tid a db t :
  u <> 0 -> tid <> 0 ->
  tasks db !! tid = Some t ->
  guards env u tid db = None ->
  submit_call toLowerCase env u tid a db =
  if Submit.validate toLowerCase (question_type t) a (correct_answer t) then
    if escrow_balance t <? reward_per_completion t
    then (InsufficientEscrow, db)
    else (settled true (Number_ (reward_per_completion t)), award env u tid a t db)
  else (settled false 0, record_wrong env u tid a db).
Proof.
  intros Hu Ht Hl Hg. rewrite submit_call_settle by assumption.
  rewrite (settle_passed _ _ _ _ _ _ Hl Hg).
  destruct (Submit.validate _ _ _ _); [|reflexivity].
  destruct (_ <? _); reflexivity.
Qed.

Lemma guards_task env u tid db :
  guards env u tid db = None -> exists t, tasks db !! tid = Some t.
Proof.
  unfold guards. destruct (tasks db !! tid) as [t|]; [eauto|discriminate].
Qed.

(** Every call leaves the store as it was, or as [award] or [record_wrong]
    make it for a task that passed the guards. *)
Lemma submit_cases env req db :
  snd (Submit.submit toLowerCase env req db) = db \/
  exists u tid a t,
    tasks db !! tid = Some t /\ guards env u tid db = None /\
    ((escrow_balance t <? reward_per_completion t) = false /\
     snd (Submit.submit toLowerCase env req db) = award env u tid a t db \/
     snd (Submit.submit toLowerCase env req db) = record_wrong env u tid a db).
Proof.
  destruct req as [m [u|] [tid|] [a|]]; unfold Submit.submit, Submit.handler;
    cbn [Submit.method Submit.auth_user Submit.body_task_id Submit.body_answer];
    destruct (negb _); try (left; reflexivity);
    try (destruct u; left; reflexivity);
    try (destruct u; destruct tid; left; reflexivity).
  assert (Hcall : u = 0 \/ tid = 0 \/ (u <> 0 /\ tid <> 0)) by lia.
  destruct Hcall as [->| [->|[Hu Ht]]]; [left; reflexivity|destruct u; left; reflexivity|].
  pose proof (submit_call_settle env u tid a db Hu Ht) as Hs.
  unfold submit_call, Submit.submit, Submit.handler in Hs.
  cbn [Submit.method Submit.auth_user Submit.body_task_id Submit.body_answer] in Hs.
  change (negb (bool_decide (js "POST" = js "POST"))) with false in Hs. cbv iota in Hs.
  rewrite Hs. clear Hs.
  destruct (guards env u tid db) as [r|] eqn:Hg.
  - rewrite (settle_rejected _ _ _ _ _ _ Hg). left; reflexivity.
  - destruct (guards_task _ _ _ _ Hg) as [t Hl].
    rewrite (settle_passed _ _ _ _ _ _ Hl Hg).
    destruct (Submit.validate _ _ _ _).
    + destruct (_ <? _) eqn:He; [left; reflexivity|].
      right. exists u, tid, a, t. cbn. auto.
    + right. exists u, tid, a, t. cbn. auto.
Qed.

End Run.

(** ** What the guards tell, and what [award] leaves *)

Lemma guards_open env u tid db t :
  guards env u tid db = None -> tasks db !! tid = Some t -> status t = js "open".
Proof.
  unfold guards. intros Hg Ht. rewrite Ht in Hg.
  destruct (bool_decide_reflect (status t = js "open")); [assumption|discriminate].
Qed.

Lemma guards_fresh env u tid db :
  guards env u tid db = None ->
  List.filter (sub_of tid u) (submissions db) = [].
Proof.
  unfold guards. destruct (tasks db !! tid) as [t|]; [|discriminate].
  destruct (negb _); [discriminate|].
  destruct (match starts_at t with Some _ => _ | None => _ end); [discriminate|].
  destruct (match ends_at t with Some _ => _ | None => _ end); [discriminate|].
  destruct (match creator_id t with Some _ => _ | None => _ end); [discriminate|].
  destruct (List.filter _ _) as [|x l]; [reflexivity|].
  destruct (Z.ltb_spec 0 (Z.of_nat (length (x :: l)))) as [|Hn]; [discriminate|].
  cbn [length] in Hn. lia.
Qed.

Lemma filter_snoc {A} (f : A -> bool) (l : list A) (x : A) :
  List.filter f (l ++ [x]) = List.filter f l ++ (if f x then [x] else []).
Proof. rewrite List.filter_app. reflexivity. Qed.

Lemma correct_count_snoc tid l s :
  correct_count tid (l ++ [s]) =
  correct_count tid l + (if correct_of tid s then 1 else 0).
Proof.
  unfold correct_count. rewrite filter_snoc, length_app.
  destruct (correct_of tid s); cbn [length]; lia.
Qed.

Lemma correct_count_nonneg tid l : 0 <= correct_count tid l.
Proof. unfold correct_count. lia. Qed.

Lemma closed_not_open : js "closed" <> js "open".
Proof. discriminate. Qed.

Section Award.

Variables (env : Submit.Env) (u tid : Z) (a : jsstring) (t : Task) (db : DB).
Hypothesis Ht : tasks db !! tid = Some t.

Lemma award_submissions :
  submissions (award env u tid a t db) =
  submissions db ++ [awarded_submission env u tid a t].
Proof. reflexivity. Qed.

Lemma award_users :
  users (award env u tid a t db) =
  alter (fun p => p + reward_per_completion t) u (users db).
Proof. reflexivity. Qed.

Lemma award_other id :
  id <> tid -> tasks (award env u tid a t db) !! id = tasks db !! id.
Proof.
  intros Hne. unfold award. cbn [tasks].
  destruct (_ <=? _); rewrite ?lookup_alter_ne by congruence; reflexivity.
Qed.

Lemma award_task :
  exists t',
    tasks (award env u tid a t db) !! tid = Some t' /\
    escrow_balance t' = escrow_balance t - reward_per_completion t /\
    reward_per_completion t' = reward_per_completion t /\
    max_acceptances t' = max_acceptances t /\
    (max_acceptances t <=
       correct_count tid (submissions db ++ [awarded_submission env u tid a t]) ->
     status t' = js "closed").
Proof.
  unfold award. cbn [tasks].
  destruct (Z.leb_spec (Number_ (max_acceptances t))
              (Number_ (correct_count tid
                 (submissions db ++ [awarded_submission env u tid a t])))) as [Hc|Hc].
  - rewrite !lookup_alter_eq, Ht. cbn. eexists. split; [reflexivity|].
    cbn. auto.
  - rewrite lookup_alter_eq, Ht. cbn. eexists. split; [reflexivity|].
    cbn. repeat split. intros Hm. apply Number_mono in Hm. lia.
Qed.

End Award.

(** ** The invariants are kept by every call *)

Section Invariants.

Variable toLowerCase : jsstring -> jsstring.

Lemma escrow_nonneg_step env req db :
  escrow_nonneg db -> escrow_nonneg (snd (Submit.submit toLowerCase env req db)).
Proof.
  intros Inv.
  destruct (submit_cases toLowerCase env req db)
    as [->|(u & tid & a & t & Ht & Hg & [[He ->]| ->])]; [assumption| |].
  - intros id t' Hl. destruct (Z.eq_dec id tid) as [->|Hne].
    + destruct (award_task env u tid a t db Ht) as (t2 & Hl2 & E & _).
      rewrite Hl2 in Hl. injection Hl as <-. rewrite E.
      apply Z.ltb_ge in He. lia.
    + rewrite award_other in Hl by assumption. eauto.
  - intros id t' Hl. exact (Inv id t' Hl).
Qed.

Lemma one_submission_step env req db :
  one_submission db -> one_submission (snd (Submit.submit toLowerCase env req db)).
Proof.
  intros Inv.
  assert (Hadd : forall u tid s l, task_id s = tid -> user_id s = u ->
            List.filter (sub_of tid u) l = [] ->
            (forall tid' uid', (length (List.filter (sub_of tid' uid') l) <= 1)%nat) ->
            forall tid' uid',
              (length (List.filter (sub_of tid' uid') (l ++ [s])) <= 1)%nat).
  { intros u tid s l E1 E2 Hf Hl tid' uid'. rewrite filter_snoc, length_app.
    unfold sub_of at 2. rewrite E1, E2.
    destruct (Z.eqb_spec tid tid') as [<-|]; cbn [andb length];
      [|specialize (Hl tid' uid'); lia].
    destruct (Z.eqb_spec u uid') as [<-|]; cbn [length];
      [rewrite Hf; cbn; lia|specialize (Hl tid uid'); lia]. }
  destruct (submit_cases toLowerCase env req db)
    as [->|(u & tid & a & t & Ht & Hg & [[He ->]| ->])]; [assumption| |];
    unfold one_submission; cbn [submissions award record_wrong];
    eapply Hadd; eauto using guards_fresh.
Qed.

Lemma acceptances_capped_step env req db :
  acceptances_capped db ->
  acceptances_capped (snd (Submit.submit toLowerCase env req db)).
Proof.
  intros Inv.
  destruct (submit_cases toLowerCase env req db)
    as [->|(u & tid & a & t & Ht & Hg & [[He ->]| ->])]; [assumption| |].
  - intros id t' Hl. rewrite award_submissions, correct_count_snoc.
    unfold correct_of, awarded_submission. cbn [task_id is_correct].
    destruct (Z.eq_dec id tid) as [->|Hne].
    + rewrite Z.eqb_refl. cbn [andb].
      destruct (award_task env u tid a t db Ht) as (t2 & Hl2 & _ & _ & Em & Hc).
      rewrite Hl2 in Hl. injection Hl as <-. rewrite Em.
      rewrite correct_count_snoc in Hc. unfold correct_of, awarded_submission in Hc.
      cbn [task_id is_correct] in Hc. rewrite Z.eqb_refl in Hc. cbn [andb] in Hc.
      split; [|intros _; exact Hc].
      destruct (Inv tid t Ht) as [Hle Hcl].
      pose proof (correct_count_nonneg tid (submissions db)) as H0.
      pose proof (guards_open _ _ _ _ _ Hg Ht) as Ho.
      destruct (Z.eq_dec (correct_count tid (submissions db)) 0); [lia|].
      destruct (Z.lt_ge_cases (correct_count tid (submissions db)) (max_acceptances t));
        [lia|].
      rewrite Hcl in Ho by lia. destruct (closed_not_open Ho).
    + rewrite award_other in Hl by assumption.
      destruct (Z.eqb_spec tid id); [congruence|]. cbn [andb].
      rewrite Z.add_0_r. exact (Inv id t' Hl).
  - intros id t' Hl. cbn [record_wrong submissions tasks] in *.
    rewrite correct_count_snoc. unfold correct_of, wrong_submission. cbn [is_correct].
    rewrite andb_false_r, Z.add_0_r. exact (Inv id t' Hl).
Qed.

(** A task whose escrow is below its reward is left as it is by every
    call: no award can debit it and no closure is committed. *)
Lemma underfunded_step env req db id t :
  tasks db !! id = Some t ->
  escrow_balance t < reward_per_completion t ->
  tasks (snd (Submit.submit toLowerCase env req db)) !! id = Some t.
Proof.
  intros Hl Hlow.
  destruct (submit_cases toLowerCase env req db)
    as [->|(u & tid & a & t0 & Ht & Hg & [[He ->]| ->])]; [assumption| |].
  - destruct (Z.eq_dec id tid) as [->|Hne].
    + rewrite Ht in Hl. injection Hl as ->. apply Z.ltb_ge in He. lia.
    + rewrite award_other by assumption. exact Hl.
  - exact Hl.
Qed.

Lemma underfunded_run ops db id t :
  tasks db !! id = Some t ->
  escrow_balance t < reward_per_completion t ->
  tasks (run toLowerCase ops db) !! id = Some t.
Proof.
  revert db. induction ops as [|[env req] ops IH]; intros db Hl Hlow; cbn.
  - exact Hl.
  - apply IH; [|exact Hlow]. apply underfunded_step; assumption.
Qed.

(** A store without submissions satisfies the invariants on them. *)
Lemma fresh_one_submission db : submissions db = [] -> one_submission db.
Proof. intros E tid uid. rewrite E. cbn. lia. Qed.

Lemma fresh_acceptances_capped db : submissions db = [] -> acceptances_capped db.
Proof.
  intros E id t _. unfold correct_count. rewrite E. cbn. lia.
Qed.

Lemma trace_invariant (P : DB -> Prop) :
  (forall env req db, P db -> P (snd (Submit.submit toLowerCase env req db))) ->
  forall ops db, P db -> Forall P (trace toLowerCase ops db).
Proof.
  intros Hstep ops. induction ops as [|[env req] ops IH]; intros db Hdb; cbn [trace].
  - constructor.
  - constructor; [|apply IH]; apply Hstep; assumption.
Qed.

End Invariants.

(** ** [trim] removes the surrounding whitespace and nothing else *)

Lemma trimStart_split s :
  exists l, s = l ++ trimStart s /\ forallb isWhiteSpace l = true.
Proof.
  induction s as [|c s [l [E Hl]]]; [exists []; auto|].
  cbn [trimStart]. destruct (isWhiteSpace c) eqn:Hc.
  - exists (c :: l). cbn [forallb app]. rewrite Hc, Hl, <- E. auto.
  - exists []. auto.
Qed.

Lemma trimStart_clean s : clean_start (trimStart s) = true.
Proof.
  induction s as [|c s IH]; [reflexivity|].
  cbn [trimStart]. destruct (isWhiteSpace c) eqn:Hc; [assumption|].
  cbn [clean_start]. rewrite Hc. reflexivity.
Qed.

Lemma trimStart_ws l x : forallb isWhiteSpace l = true -> trimStart (l ++ x) = trimStart x.
Proof.
  induction l as [|c l IH]; [reflexivity|].
  cbn [forallb app trimStart]. intros [Hc Hl]%andb_true_iff.
  rewrite Hc. auto.
Qed.

Lemma trimStart_id t : clean_start t = true -> trimStart t = t.
Proof.
  destruct t as [|c t]; [reflexivity|].
  cbn [clean_start trimStart]. intros Hc%negb_true_iff. rewrite Hc. reflexivity.
Qed.

Lemma trimStart_keeps_last l c :
  isWhiteSpace c = false -> exists l', trimStart (l ++ [c]) = l' ++ [c].
Proof.
  intros Hc. induction l as [|d l [l' IH]].
  - exists []. cbn. rewrite Hc. reflexivity.
  - cbn [app trimStart]. destruct (isWhiteSpace d).
    + exists l'. assumption.
    + exists (d :: l). reflexivity.
Qed.

Lemma forallb_rev {A} (f : A -> bool) l : forallb f (rev l) = forallb f l.
Proof.
  induction l as [|x l IH]; [reflexivity|].
  cbn [rev forallb]. rewrite forallb_app, IH. cbn [forallb].
  rewrite andb_true_r. apply andb_comm.
Qed.

Lemma trim_trimmed s : trimmed_of s (trim s).
Proof.
  destruct (trimStart_split s) as [l [El Hl]].
  destruct (trimStart_split (rev (trimStart s))) as [r [Er Hr]].
  exists l, (rev r). unfold trim, trimEnd.
  rewrite <- rev_app_distr, <- Er, rev_involutive, forallb_rev.
  repeat split; try assumption.
  - pose proof (trimStart_clean s) as Hc.
    destruct (trimStart s) as [|c u]; [reflexivity|].
    cbn [clean_start] in Hc. apply negb_true_iff in Hc.
    cbn [rev]. destruct (trimStart_keeps_last (rev u) c Hc) as [l' ->].
    rewrite rev_app_distr. cbn. rewrite Hc. reflexivity.
  - rewrite rev_involutive. apply trimStart_clean.
Qed.

Lemma trimmed_trim s t : trimmed_of s t -> trim s = t.
Proof.
  intros (l & r & -> & Hl & Hr & Hs & He). unfold trim, trimEnd.
  rewrite (trimStart_ws l _ Hl).
  destruct t as [|c t].
  - cbn [app]. replace r with (r ++ []) by apply app_nil_r.
    rewrite (trimStart_ws r [] Hr). reflexivity.
  - rewrite (trimStart_id ((c :: t) ++ r)) by exact Hs.
    rewrite rev_app_distr, trimStart_ws by (rewrite forallb_rev; exact Hr).
    rewrite (trimStart_id _ He). apply rev_involutive.
Qed.

(** ** The guards are the six preconditions *)

Lemma filter_existsb {A} (f : A -> bool) l :
  (0 <? Z.of_nat (length (List.filter f l))) = existsb f l.
Proof.
  induction l as [|x l IH]; [reflexivity|].
  cbn [List.filter existsb]. destruct (f x); [|exact IH].
  cbn [length orb]. apply Z.ltb_lt. lia.
Qed.

Lemma guards_precondition_failure env u tid db :
  u <> 0 -> js_number u -> creator_js_number tid db ->
  guards env u tid db = precondition_failure (Submit.js_now env) u tid db.
Proof.
  intros Hu Hju Hjc. unfold guards, precondition_failure.
  destruct (tasks db !! tid) as [t|] eqn:Ht; [|reflexivity].
  destruct (negb _); [reflexivity|].
  assert (Hs : (match starts_at t with
                | Some s => Submit.js_now env <? s | None => false end) =
               negb (from_option (fun s => s <=? Submit.js_now env) true (starts_at t))).
  { destruct (starts_at t); cbn; [apply Z.ltb_antisym|reflexivity]. }
  assert (He : (match ends_at t with
                | Some e => e <? Submit.js_now env | None => false end) =
               negb (from_option (fun e => Submit.js_now env <=? e) true (ends_at t))).
  { destruct (ends_at t); cbn; [apply Z.ltb_antisym|reflexivity]. }
  assert (Hc : (match creator_id t with
                | Some c => negb (c =? 0) && (Number_ c =? Number_ u)
                | None => false end) =
               from_option (fun c => c =? u) false (creator_id t)).
  { destruct (creator_id t) as [c|] eqn:Ec; [|reflexivity]. cbn [from_option].
    rewrite (Hjc t c Ht Ec), Hju.
    destruct (Z.eqb_spec c 0) as [->|]; [|reflexivity].
    cbn [negb andb]. symmetry. apply Z.eqb_neq. congruence. }
  rewrite Hs, He, Hc, filter_existsb. reflexivity.
Qed.

Lemma failure_not_success code msg : success (json (failure code msg)) = false.
Proof. reflexivity. Qed.

Lemma guards_failure env u tid db r :
  guards env u tid db = Some r -> success (json r) = false.
Proof.
  unfold guards. destruct (tasks db !! tid) as [t|]; [|intros [= <-]; reflexivity].
  repeat (match goal with
          | |- (if ?b then _ else _) = _ -> _ =>
              destruct b; [intros [= <-]; reflexivity|]
          end).
  discriminate.
Qed.

Lemma has_submission_existsb tid uid l :
  bool_decide (has_submission tid uid l) = existsb (sub_of tid uid) l.
Proof.
  assert (H : has_submission tid uid l <-> existsb (sub_of tid uid) l = true).
  { unfold has_submission. induction l as [|s l IH]; cbn [existsb].
    - split; [intros Hx; inversion Hx|discriminate].
    - assert (Hs : (task_id s = tid /\ user_id s = uid) <-> sub_of tid uid s = true).
      { unfold sub_of. rewrite andb_true_iff, !Z.eqb_eq. reflexivity. }
      rewrite Exists_cons, IH, orb_true_iff, Hs. reflexivity. }
  destruct (existsb (sub_of tid uid) l).
  - apply bool_decide_eq_true_2, H. reflexivity.
  - apply bool_decide_eq_false_2. intros Hx. apply H in Hx. discriminate.
Qed.

(** The guards of the handler are the list of preconditions with the ids
    compared as JS numbers. *)
Lemma guards_first_violation env u tid db :
  u <> 0 ->
  guards env u tid db = first_violation same_number (Submit.js_now env) u tid db.
Proof.
  intros Hu. unfold guards, first_violation.
  destruct (tasks db !! tid) as [t|]; [|reflexivity].
  rewrite bool_decide_not. destruct (negb _); [reflexivity|].
  assert (Hs : (match starts_at t with
                | Some s => Submit.js_now env <? s | None => false end) =
               from_option (fun s => bool_decide (Submit.js_now env < s)) false
                 (starts_at t)).
  { destruct (starts_at t) as [s|]; [|reflexivity]. cbn [from_option].
    destruct (Z.ltb_spec (Submit.js_now env) s);
      [rewrite bool_decide_eq_true_2|rewrite bool_decide_eq_false_2]; auto with zarith. }
  assert (He : (match ends_at t with
                | Some e => e <? Submit.js_now env | None => false end) =
               from_option (fun e => bool_decide (e < Submit.js_now env)) false
                 (ends_at t)).
  { destruct (ends_at t) as [e|]; [|reflexivity]. cbn [from_option].
    destruct (Z.ltb_spec e (Submit.js_now env));
      [rewrite bool_decide_eq_true_2|rewrite bool_decide_eq_false_2]; auto with zarith. }
  assert (Hc : (match creator_id t with
                | Some c => negb (c =? 0) && (Number_ c =? Number_ u)
                | None => false end) =
               from_option (fun c => same_number c u) false (creator_id t)).
  { destruct (creator_id t) as [c|]; [|reflexivity]. cbn [from_option].
    unfold same_number.
    destruct (Z.eqb_spec (Number_ c) (Number_ u)) as [E|E].
    - rewrite (bool_decide_eq_true_2 _ E), andb_true_r.
      destruct (Z.eqb_spec c 0) as [->|]; [|reflexivity].
      exfalso. apply Hu, Number_nonzero. rewrite <- E. reflexivity.
    - rewrite (bool_decide_eq_false_2 _ E). apply andb_false_r. }
  rewrite Hs, He, Hc, filter_existsb, has_submission_existsb. reflexivity.
Qed.

(** For ids that JS numbers hold exactly, comparing the numbers is
    comparing the ids. *)
Lemma first_violation_same_id now u tid db :
  js_number u -> creator_js_number tid db ->
  first_violation same_number now u tid db = first_violation same_id now u tid db.
Proof.
  intros Hju Hjc. unfold first_violation.
  destruct (tasks db !! tid) as [t|] eqn:Ht; [|reflexivity].
  destruct (creator_id t) as [c|] eqn:Ec; [|reflexivity]. cbn [from_option].
  unfold same_number, same_id. rewrite (Hjc t c Ht Ec), Hju. reflexivity.
Qed.

(** What an accepted ingestion request leaves in the store. *)
Lemma official_created req db id db' :
  Official.handler req db = (created id, db') ->
  exists t,
    tasks db' !! id = Some t /\
    escrow_balance t = 0 /\ status t = js "open" /\ creator_id t = None /\
    reward_per_completion t = default 0 (Official.reward_per_completion req) /\
    max_acceptances t = default 1 (Official.max_acceptances req).
Proof.
  unfold Official.handler.
  destruct (negb _); [discriminate|].
  destruct (Official.falsy _); [discriminate|].
  destruct (negb _); [discriminate|].
  destruct (_ || _); [discriminate|].
  unfold Official.insert_task.
  destruct (tasks db !! tasks_id_seq db); [discriminate|].
  intros [= <- <-]. cbn [tasks]. rewrite lookup_insert_eq.
  eexists. split; [reflexivity|]. cbn. auto.
Qed.

Section Claims.

Variable toLowerCase : jsstring -> jsstring.

(** C1, as the code has it: when the guards pass, the answer is correct
    and the escrow is below the reward, the call answers
    [InsufficientEscrow] and the rollback restores the store as a whole: no
    submission, no debit, and the task keeps the status [open] it had, so
    the closure written before the rollback does not persist. *)
Theorem C1_insufficient_escrow_rolls_back env u tid a db t :
  u <> 0 -> tid <> 0 ->
  tasks db !! tid = Some t ->
  guards env u tid db = None ->
  Submit.validate toLowerCase (question_type t) a (correct_answer t) = true ->
  escrow_balance t < reward_per_completion t ->
  submit_call toLowerCase env u tid a db = (InsufficientEscrow, db) /\
  status <$> tasks (snd (submit_call toLowerCase env u tid a db)) !! tid
    = Some (js "open").
Proof.
  intros Hu Hid Ht Hg Hv He.
  rewrite (submit_call_passed toLowerCase env u tid a db t Hu Hid Ht Hg), Hv.
  apply Z.ltb_lt in He. rewrite He. split; [reflexivity|].
  cbn [snd]. rewrite Ht. cbn. f_equal. exact (guards_open _ _ _ _ _ Hg Ht).
Qed.

(** C2, with the response the code builds: when the guards pass, the answer is correct and the
    escrow covers the reward, the task's escrow goes down by exactly the
    reward, a submission with [is_correct = true] and
    [awarded_points = reward] is stored, the user's points go up by the
    reward, and the response is [{is_correct: true, awarded_points:
    Number(reward)}], which is the reward itself when its magnitude is
    below 2^53. *)
Theorem C2_award env u tid a db t :
  u <> 0 -> tid <> 0 ->
  tasks db !! tid = Some t ->
  guards env u tid db = None ->
  Submit.validate toLowerCase (question_type t) a (correct_answer t) = true ->
  reward_per_completion t <= escrow_balance t ->
  exists db',
    submit_call toLowerCase env u tid a db =
      (settled true (Number_ (reward_per_completion t)), db') /\
    (Z.abs (reward_per_completion t) < 2 ^ 53 ->
     fst (submit_call toLowerCase env u tid a db) =
       settled true (reward_per_completion t)) /\
    (exists t', tasks db' !! tid = Some t' /\
       escrow_balance t' = escrow_balance t - reward_per_completion t) /\
    In (mkSubmission tid u a true (reward_per_completion t) (Submit.sql_now env))
       (submissions db') /\
    users db' !! u = (fun p => p + reward_per_completion t) <$> users db !! u.
Proof.
  intros Hu Hid Ht Hg Hv He.
  rewrite (submit_call_passed toLowerCase env u tid a db t Hu Hid Ht Hg), Hv.
  apply Z.ltb_ge in He. rewrite He.
  exists (award env u tid a t db). split; [reflexivity|]. split; [|split; [|split]].
  - intros Hsafe. cbn [fst]. rewrite (Number_safe _ Hsafe). reflexivity.
  - destruct (award_task env u tid a t db Ht) as (t' & Hl & E & _). eauto.
  - rewrite award_submissions. apply in_or_app. right. left. reflexivity.
  - rewrite award_users. apply lookup_alter_eq.
Qed.

(** C3: if no task has a negative escrow balance, none has after any call
    of any sequence of calls. *)
Theorem C3_escrow_never_negative ops db :
  escrow_nonneg db -> Forall escrow_nonneg (trace toLowerCase ops db).
Proof.
  apply trace_invariant. apply escrow_nonneg_step.
Qed.

(** C4, with the order of the guards: if every (task, user) pair has at most one submission,
    it has at most one after any call of any sequence; and a call by a user
    who already has a submission for the task is rejected by one of the six
    guards, before the answer is looked at, with the store unchanged: by
    [AlreadySubmitted] when the five earlier preconditions hold, by the
    error of the first one that does not otherwise. *)
Theorem C4_one_submission_per_pair db :
  one_submission db ->
  (forall ops, Forall one_submission (trace toLowerCase ops db)) /\
  (forall env u tid a,
     u <> 0 -> tid <> 0 ->
     existsb (sub_of tid u) (submissions db) = true ->
     exists r,
       guards env u tid db = Some r /\
       submit_call toLowerCase env u tid a db = (r, db) /\
       success (json r) = false /\
       (js_number u -> creator_js_number tid db ->
        precondition_failure (Submit.js_now env) u tid db = Some AlreadySubmitted ->
        r = AlreadySubmitted)).
Proof.
  intros Inv. split.
  - intros ops. apply trace_invariant; [apply one_submission_step|exact Inv].
  - intros env u tid a Hu Hid Hex.
    destruct (guards env u tid db) as [r|] eqn:Hg.
    + exists r. split; [reflexivity|]. split; [|split].
      * apply submit_call_rejected; assumption.
      * exact (guards_failure _ _ _ _ _ Hg).
      * intros Hju Hjc Hp.
        rewrite (guards_precondition_failure env u tid db Hu Hju Hjc) in Hg.
        congruence.
    + apply guards_fresh in Hg. rewrite <- filter_existsb, Hg in Hex. discriminate.
Qed.

(** C5, with the bound the handler keeps: if every task has at most
    [max 1 max_acceptances] correct submissions and is closed once it has
    one and has reached [max_acceptances], as in every store without
    submissions, the same holds after any call of any sequence of calls.
    So a task with [max_acceptances >= 1] never has more correct
    submissions than [max_acceptances] and is closed when it reaches it;
    a task with [max_acceptances <= 0] has at most one. *)
Theorem C5_acceptances_capped ops db :
  acceptances_capped db ->
  Forall (fun d =>
            forall id task, tasks d !! id = Some task ->
              correct_count id (submissions d) <= Z.max 1 (max_acceptances task) /\
              (1 <= max_acceptances task ->
               correct_count id (submissions d) <= max_acceptances task /\
               (max_acceptances task <= correct_count id (submissions d) ->
                status task = js "closed")) /\
              (1 <= correct_count id (submissions d) ->
               max_acceptances task <= correct_count id (submissions d) ->
               status task = js "closed"))
         (trace toLowerCase ops db).
Proof.
  intros Inv.
  apply (Forall_impl acceptances_capped).
  - apply trace_invariant; [apply acceptances_capped_step|exact Inv].
  - intros d Hd id task Hl. destruct (Hd id task Hl) as [Hle Hcl].
    split; [exact Hle|]. split; [|exact Hcl].
    intros Hm. split; [lia|]. intros Hfull. apply Hcl; lia.
Qed.

(** C6, with the ids compared as the handler compares them: the call
    checks six preconditions in the order of the specification: task
    exists ([NotFound]), status [open] ([TaskClosed]), now >= starts_at
    ([NotStarted]), now <= ends_at ([Expired]), the user's id and the
    creator's are different JS numbers ([SelfSubmission]), no earlier
    submission ([AlreadySubmitted]).  The first one violated is the
    response, and the store is left as it was; when none is, the response
    is none of these errors.  For ids that JS numbers hold exactly the
    fifth is the inequality of the ids themselves. *)
Theorem C6_preconditions_in_order env u tid a db :
  u <> 0 -> tid <> 0 ->
  match first_violation same_number (Submit.js_now env) u tid db with
  | Some r => submit_call toLowerCase env u tid a db = (r, db)
  | None =>
      fst (submit_call toLowerCase env u tid a db) = InsufficientEscrow \/
      exists ok points, fst (submit_call toLowerCase env u tid a db) = settled ok points
  end /\
  (js_number u -> creator_js_number tid db ->
   first_violation same_number (Submit.js_now env) u tid db
   = first_violation same_id (Submit.js_now env) u tid db).
Proof.
  intros Hu Hid. split; [|apply first_violation_same_id].
  rewrite <- (guards_first_violation env u tid db Hu).
  destruct (guards env u tid db) as [r|] eqn:Hg.
  - apply submit_call_rejected; assumption.
  - destruct (guards_task _ _ _ _ Hg) as [t Ht].
    rewrite (submit_call_passed toLowerCase env u tid a db t Hu Hid Ht Hg).
    destruct (Submit.validate _ _ _ _); [destruct (_ <? _)|]; cbn [fst]; eauto.
Qed.

(** C7: for [mcq] the answer is accepted exactly when the two strings are
    the same once the surrounding whitespace of each is removed, without
    any case mapping; for [short] exactly when the two trimmed strings have
    the same image under [toLowerCase]. *)
Theorem C7_validate submitted correct :
  (Submit.validate toLowerCase (js "mcq") submitted correct = true <->
   exists t, trimmed_of submitted t /\ trimmed_of correct t) /\
  (Submit.validate toLowerCase (js "short") submitted correct = true <->
   exists ts tc, trimmed_of submitted ts /\ trimmed_of correct tc /\
     toLowerCase ts = toLowerCase tc).
Proof.
  unfold Submit.validate. split.
  - rewrite bool_decide_eq_true_2 by reflexivity. rewrite bool_decide_eq_true.
    split.
    + intros E. exists (trim submitted). split; [|rewrite E]; apply trim_trimmed.
    + intros (t & Hs & Hc). apply trimmed_trim in Hs, Hc. congruence.
  - rewrite bool_decide_eq_false_2 by discriminate. rewrite bool_decide_eq_true.
    split.
    + intros E. exists (trim submitted), (trim correct).
      auto using trim_trimmed.
    + intros (ts & tc & Hs & Hc & E). apply trimmed_trim in Hs, Hc. congruence.
Qed.

(** C8: when the guards pass and the answer is wrong, a submission with
    [is_correct = false] and [awarded_points = 0] is appended and
    committed, the tasks (so every escrow balance) and the users' points
    are as before, and the response is
    [{is_correct: false, awarded_points: 0}]. *)
Theorem C8_wrong_answer env u tid a db t :
  u <> 0 -> tid <> 0 ->
  tasks db !! tid = Some t ->
  guards env u tid db = None ->
  Submit.validate toLowerCase (question_type t) a (correct_answer t) = false ->
  exists db',
    submit_call toLowerCase env u tid a db = (settled false 0, db') /\
    submissions db' =
      submissions db ++ [mkSubmission tid u a false 0 (Submit.sql_now env)] /\
    tasks db' = tasks db /\ users db' = users db.
Proof.
  intros Hu Hid Ht Hg Hv.
  rewrite (submit_call_passed toLowerCase env u tid a db t Hu Hid Ht Hg), Hv.
  exists (record_wrong env u tid a db). repeat split.
Qed.

(** C10: a task the ingestion endpoint has just created has escrow 0 and no
    creator; if its reward is positive, then after any sequence of calls
    every call on it that passes the guards with a correct answer is
    answered [InsufficientEscrow] and leaves the store, users' points
    included, as it was. *)
Theorem C10_official_task_unfunded req db id db' :
  Official.handler req db = (created id, db') ->
  exists t,
    tasks db' !! id = Some t /\ escrow_balance t = 0 /\ creator_id t = None /\
    forall ops env u a,
      u <> 0 -> id <> 0 ->
      0 < reward_per_completion t ->
      guards env u id (run toLowerCase ops db') = None ->
      Submit.validate toLowerCase (question_type t) a (correct_answer t) = true ->
      submit_call toLowerCase env u id a (run toLowerCase ops db')
        = (InsufficientEscrow, run toLowerCase ops db').
Proof.
  intros H. destruct (official_created req db id db' H) as (t & Ht & Ee & _ & Ec & _).
  exists t. repeat split; try assumption.
  intros ops env u a Hu Hid Hr Hg Hv.
  assert (Hlow : escrow_balance t < reward_per_completion t) by lia.
  pose proof (underfunded_run toLowerCase ops db' id t Ht Hlow) as Ht'.
  rewrite (submit_call_passed toLowerCase env u id a _ t Hu Hid Ht' Hg), Hv.
  apply Z.ltb_lt in Hlow. rewrite Hlow. reflexivity.
Qed.

End Claims.

(** C9, as far as the handler goes: the task created by an accepted ingestion request has
    escrow balance 0 and status [open]; its reward and its number of
    acceptances are the request's ([0] and [1] when absent), unchecked, so
    they are non-negative exactly when the request's are. *)
Theorem C9_ingested_task req db id db' :
  Official.handler req db = (created id, db') ->
  exists t,
    tasks db' !! id = Some t /\
    escrow_balance t = 0 /\ status t = js "open" /\
    reward_per_completion t = default 0 (Official.reward_per_completion req) /\
    max_acceptances t = default 1 (Official.max_acceptances req).
Proof.
  intros H. destruct (official_created req db id db' H) as (t & Ht & Ee & Es & _ & Er & Em).
  exists t. auto.
Qed.

(** ** The theorems on concrete stores *)

Lemma js_number_small z : Z.abs z < 2 ^ 53 -> js_number z.
Proof. exact (Number_safe z). Qed.

Lemma demo_creator t tid :
  creator_id t = Some 7 -> creator_js_number tid (demo_db t).
Proof.
  intros Hc t' c Hl Hc'. unfold demo_db in Hl. cbn [tasks] in Hl.
  apply lookup_singleton_Some in Hl as [_ <-].
  rewrite Hc in Hc'. injection Hc' as <-. reflexivity.
Qed.

Lemma demo_escrow_nonneg t : 0 <= escrow_balance t -> escrow_nonneg (demo_db t).
Proof.
  intros He id t' Hl. unfold demo_db in Hl. cbn [tasks] in Hl.
  apply lookup_singleton_Some in Hl as [_ <-]. exact He.
Qed.

(** The scenario of the specification, on the code: the escrow of 25 pays
    two rewards of 10; the third and the fourth correct answers are turned
    down, and the task is still [open] afterwards. *)
Example scenario_escrow :
  map (fun d => escrow_balance <$> tasks d !! 1)
      (trace ascii_toLowerCase scenario_ops scenario_db)
  = [Some 15; Some 5; Some 5; Some 5].
Proof. vm_compute. reflexivity. Qed.

Example scenario_status :
  map (fun d => status <$> tasks d !! 1)
      (trace ascii_toLowerCase scenario_ops scenario_db)
  = [Some (js "open"); Some (js "open"); Some (js "open"); Some (js "open")].
Proof. vm_compute. reflexivity. Qed.

Example mcq_trim_only :
  Submit.validate ascii_toLowerCase (js "mcq") (js "B") (js " B ") = true /\
  Submit.validate ascii_toLowerCase (js "mcq") (js "b") (js " B ") = false.
Proof. split; vm_compute; reflexivity. Qed.

Example short_trim_and_case :
  Submit.validate ascii_toLowerCase (js "short") (js "paris ") (js "Paris") = true /\
  Submit.validate ascii_toLowerCase (js "short") (js "pa ris") (js "Paris") = false /\
  Submit.validate ascii_toLowerCase (js "short") (js "paris.") (js "Paris") = false.
Proof. repeat split; vm_compute; reflexivity. Qed.

Example creator_rejected :
  submit_call ascii_toLowerCase noon 7 1 (js "B") scenario_db
  = (SelfSubmission, scenario_db).
Proof. vm_compute. reflexivity. Qed.

Lemma drained_lookup : tasks drained_db !! 1 = Some drained_task.
Proof. vm_compute. reflexivity. Qed.

Lemma C1_witness :
  escrow_balance drained_task < reward_per_completion drained_task /\
  submit_call ascii_toLowerCase noon 4 1 (js "B") drained_db
    = (InsufficientEscrow, drained_db) /\
  status <$> tasks
    (snd (submit_call ascii_toLowerCase noon 4 1 (js "B") drained_db)) !! 1
    = Some (js "open").
Proof.
  split; [reflexivity|].
  apply (C1_insufficient_escrow_rolls_back ascii_toLowerCase noon 4 1 (js "B")
           drained_db drained_task).
  - discriminate.
  - discriminate.
  - exact drained_lookup.
  - vm_compute. reflexivity.
  - vm_compute. reflexivity.
  - reflexivity.
Defined.

Lemma scenario_lookup : tasks scenario_db !! 1 = Some (demo_task "mcq" " B " 10 5 25).
Proof. vm_compute. reflexivity. Qed.

Lemma C2_witness :
  exists db',
    submit_call ascii_toLowerCase noon 2 1 (js "B") scenario_db
      = (settled true 10, db') /\
    escrow_balance <$> tasks db' !! 1 = Some 15 /\
    In (mkSubmission 1 2 (js "B") true 10 1000) (submissions db') /\
    users db' !! 2 = Some 10.
Proof.
  destruct (C2_award ascii_toLowerCase noon 2 1 (js "B") scenario_db
              (demo_task "mcq" " B " 10 5 25))
    as (db' & Hr & _ & (t' & Ht' & He) & Hs & Hu).
  - discriminate.
  - discriminate.
  - exact scenario_lookup.
  - vm_compute. reflexivity.
  - vm_compute. reflexivity.
  - vm_compute. discriminate.
  - exists db'. split; [exact Hr|]. split; [rewrite Ht'; cbn; rewrite He; reflexivity|].
    split; [exact Hs|]. rewrite Hu. vm_compute. reflexivity.
Defined.

(** C2 as stated fails for a reward of 2^53 + 1: the guards pass, the
    answer is correct, the escrow covers the reward, and the response
    carries 2^53, not the reward. *)
Lemma C2_counterexample :
  tasks huge_db !! 1 = Some (demo_task "mcq" "B" huge_reward 5 huge_reward) /\
  guards noon 2 1 huge_db = None /\
  Submit.validate ascii_toLowerCase (js "mcq") (js "B") (js "B") = true /\
  fst (submit_call ascii_toLowerCase noon 2 1 (js "B") huge_db)
    = settled true (huge_reward - 1) /\
  fst (submit_call ascii_toLowerCase noon 2 1 (js "B") huge_db)
    <> settled true huge_reward.
Proof.
  repeat split; try (vm_compute; reflexivity).
  vm_compute. discriminate.
Qed.

Lemma C3_witness :
  Forall escrow_nonneg (trace ascii_toLowerCase scenario_ops scenario_db).
Proof.
  apply (C3_escrow_never_negative ascii_toLowerCase scenario_ops scenario_db).
  apply demo_escrow_nonneg. cbn. lia.
Defined.

Lemma C4_witness :
  Forall one_submission (trace ascii_toLowerCase scenario_ops scenario_db) /\
  submit_call ascii_toLowerCase noon 2 1 (js "C") drained_db
    = (AlreadySubmitted, drained_db).
Proof.
  split.
  - exact (proj1 (C4_one_submission_per_pair ascii_toLowerCase scenario_db
                    (fresh_one_submission scenario_db eq_refl)) scenario_ops).
  - assert (Hinv : one_submission drained_db).
    { change drained_db with
        (snd (Submit.submit ascii_toLowerCase noon (call 3 1 "B")
           (snd (Submit.submit ascii_toLowerCase noon (call 2 1 "B") scenario_db)))).
      do 2 apply one_submission_step. apply fresh_one_submission. reflexivity. }
    destruct (proj2 (C4_one_submission_per_pair ascii_toLowerCase drained_db Hinv)
                noon 2 1 (js "C")) as (r & Hg & Hs & _ & Hr).
    + discriminate.
    + discriminate.
    + vm_compute. reflexivity.
    + rewrite Hs. f_equal. apply Hr.
      * reflexivity.
      * intros t c Hl Hc. rewrite drained_lookup in Hl. injection Hl as <-.
        injection Hc as <-. reflexivity.
      * vm_compute. reflexivity.
Defined.

(** C4 as stated fails once the task has closed: user 2 holds the only
    submission of the one-acceptance task, and a second call is answered
    [TaskClosed], not [AlreadySubmitted]. *)
Lemma C4_counterexample :
  existsb (sub_of 1 2) (submissions taken_db) = true /\
  submit_call ascii_toLowerCase noon 2 1 (js "Paris") taken_db
    = (TaskClosed, taken_db) /\
  TaskClosed <> AlreadySubmitted.
Proof.
  repeat split; try (vm_compute; reflexivity). discriminate.
Qed.

Lemma C5_witness :
  Forall (fun d =>
            forall id task, tasks d !! id = Some task ->
              correct_count id (submissions d) <= Z.max 1 (max_acceptances task) /\
              (1 <= max_acceptances task ->
               correct_count id (submissions d) <= max_acceptances task /\
               (max_acceptances task <= correct_count id (submissions d) ->
                status task = js "closed")) /\
              (1 <= correct_count id (submissions d) ->
               max_acceptances task <= correct_count id (submissions d) ->
               status task = js "closed"))
         (trace ascii_toLowerCase single_ops single_db) /\
  status <$> tasks taken_db !! 1 = Some (js "closed").
Proof.
  split.
  - apply (C5_acceptances_capped ascii_toLowerCase single_ops single_db).
    apply fresh_acceptances_capped. reflexivity.
  - vm_compute. reflexivity.
Defined.

(** C5 as stated fails for a task that accepts no answer: the ingestion
    route creates it open with [max_acceptances] 0, the store holds no
    submission, and the first correct answer is settled and recorded, so
    that the task has one correct submission, more than [max_acceptances]. *)
Lemma C5_counterexample :
  Official.handler (official_request None (Some 0)) scenario_db
    = (created 2, zero_ingested_db) /\
  submissions zero_ingested_db = [] /\
  Submit.submit ascii_toLowerCase noon (call 2 2 "paris") zero_ingested_db
    = (settled true 0, zero_settled_db) /\
  max_acceptances <$> tasks zero_settled_db !! 2 = Some 0 /\
  correct_count 2 (submissions zero_settled_db) = 1 /\
  ~ correct_count 2 (submissions zero_settled_db) <= 0.
Proof.
  repeat (split; [vm_compute; reflexivity|]).
  vm_compute. intros H. apply H. reflexivity.
Qed.

Lemma C6_witness :
  submit_call ascii_toLowerCase noon 7 1 (js "B") scenario_db
    = (SelfSubmission, scenario_db) /\
  submit_call ascii_toLowerCase noon 2 9 (js "B") scenario_db
    = (NotFound, scenario_db) /\
  first_violation same_number 1000 2 1 scenario_db
    = first_violation same_id 1000 2 1 scenario_db.
Proof.
  split; [|split].
  - apply (C6_preconditions_in_order ascii_toLowerCase noon 7 1 (js "B") scenario_db);
      discriminate.
  - apply (C6_preconditions_in_order ascii_toLowerCase noon 2 9 (js "B") scenario_db);
      discriminate.
  - apply (C6_preconditions_in_order ascii_toLowerCase noon 2 1 (js "B") scenario_db).
    + discriminate.
    + discriminate.
    + reflexivity.
    + apply demo_creator. reflexivity.
Defined.

(** C6 as stated fails for two ids that are one JS number: the task is
    there, open, without time window and without submission, the user
    2^53 is not the creator 2^53 + 1, so none of the six preconditions as
    stated is violated, and the call is refused [SelfSubmission]. *)
Lemma C6_counterexample :
  twin_user <> twin_creator /\
  first_violation same_id 1000 twin_user 1 twin_db = None /\
  submit_call ascii_toLowerCase noon twin_user 1 (js "B") twin_db
    = (SelfSubmission, twin_db).
Proof.
  split; [discriminate|]. split; vm_compute; reflexivity.
Qed.

Lemma C8_witness :
  exists db',
    submit_call ascii_toLowerCase noon 2 1 (js "C") scenario_db
      = (settled false 0, db') /\
    submissions db' = [mkSubmission 1 2 (js "C") false 0 1000] /\
    tasks db' = tasks scenario_db /\ users db' = users scenario_db.
Proof.
  apply (C8_wrong_answer ascii_toLowerCase noon 2 1 (js "C") scenario_db
           (demo_task "mcq" " B " 10 5 25)).
  - discriminate.
  - discriminate.
  - exact scenario_lookup.
  - vm_compute. reflexivity.
  - vm_compute. reflexivity.
Defined.

Lemma ingested_created :
  Official.handler (official_request (Some 10) (Some 5)) scenario_db
  = (created 2, ingested_db).
Proof. vm_compute. reflexivity. Qed.

Lemma C9_witness :
  exists t,
    tasks ingested_db !! 2 = Some t /\
    escrow_balance t = 0 /\ status t = js "open" /\
    reward_per_completion t = 10 /\ max_acceptances t = 5.
Proof.
  exact (C9_ingested_task (official_request (Some 10) (Some 5)) scenario_db 2
           ingested_db ingested_created).
Defined.

(** C9 as stated fails for a request with a negative reward: it is
    accepted, and the task it creates has reward -5. *)
Lemma C9_counterexample :
  exists db' t,
    Official.handler (official_request (Some (-5)) None) scenario_db
      = (created 2, db') /\
    tasks db' !! 2 = Some t /\
    status t = js "open" /\
    ~ 0 <= reward_per_completion t.
Proof.
  eexists. eexists. split; [vm_compute; reflexivity|].
  split; [vm_compute; reflexivity|]. split; [reflexivity|].
  cbn. lia.
Qed.

Lemma C10_witness :
  exists t,
    tasks ingested_db !! 2 = Some t /\ escrow_balance t = 0 /\
    creator_id t = None /\
    submit_call ascii_toLowerCase noon 3 2 (js " PARIS")
      (run ascii_toLowerCase [(noon, call 2 2 "Lyon")] ingested_db)
    = (InsufficientEscrow,
       run ascii_toLowerCase [(noon, call 2 2 "Lyon")] ingested_db).
Proof.
  destruct (C10_official_task_unfunded ascii_toLowerCase
              (official_request (Some 10) (Some 5)) scenario_db 2 ingested_db
              ingested_created) as (t & Ht & He & Hc & Hsub).
  exists t. split; [exact Ht|]. split; [exact He|]. split; [exact Hc|].
  assert (Et : t = mkTask None (js "official") (js "Capital of France?")
                     (js "short") None (js "Paris") 10 5 0 0 0 (js "open")
                     None None).
  { assert (Hl : tasks ingested_db !! 2 =
                 Some (mkTask None (js "official") (js "Capital of France?")
                         (js "short") None (js "Paris") 10 5 0 0 0 (js "open")
                         None None)) by (vm_compute; reflexivity).
    congruence. }
  apply Hsub.
  - discriminate.
  - discriminate.
  - rewrite Et. reflexivity.
  - vm_compute. reflexivity.
  - rewrite Et. vm_compute. reflexivity.
Defined.

(** * Beyond the claims: one call of a route *)

Section OneCall.

Variable toLowerCase : jsstring -> jsstring.

Lemma submit_wellformed env req db u tid a :
  bool_decide (Submit.method req = js "POST") = true ->
  Submit.auth_user req = Some u -> u <> 0 ->
  Submit.body_task_id req = Some tid -> tid <> 0 ->
  Submit.body_answer req = Some a ->
  Submit.submit toLowerCase env req db = submit_call toLowerCase env u tid a db.
Proof.
  destruct req as [m au bt ba].
  cbn [Submit.method Submit.auth_user Submit.body_task_id Submit.body_answer].
  intros Hm -> Hu -> Ht ->.
  unfold submit_call, Submit.submit, Submit.handler.
  cbn [Submit.method Submit.auth_user Submit.body_task_id Submit.body_answer].
  rewrite Hm. change (bool_decide (js "POST" = js "POST")) with true. cbn [negb].
  destruct u; [congruence| |]; (destruct tid; [congruence| |]); reflexivity.
Qed.

Lemma submit_malformed env req db :
  bool_decide (Submit.method req = js "POST") = false \/
  Submit.auth_user req = None \/ Submit.auth_user req = Some 0 \/
  Submit.body_task_id req = None \/ Submit.body_task_id req = Some 0 \/
  Submit.body_answer req = None ->
  success (json (fst (Submit.submit toLowerCase env req db))) = false /\
  snd (Submit.submit toLowerCase env req db) = db.
Proof.
  destruct req as [m au bt ba].
  cbn [Submit.method Submit.auth_user Submit.body_task_id Submit.body_answer].
  unfold Submit.submit, Submit.handler.
  cbn [Submit.method Submit.auth_user Submit.body_task_id Submit.body_answer].
  intros H. destruct (bool_decide (m = js "POST")); cbn [negb]; [|split; reflexivity].
  destruct au as [[| |]|]; try (split; reflexivity);
    destruct bt as [[| |]|]; try (split; reflexivity);
    destruct ba; try (split; reflexivity);
    exfalso; decompose [or] H; discriminate.
Qed.

(** The three ways a call can end. *)
Lemma submit_outcome env req db :
  (success (json (fst (Submit.submit toLowerCase env req db))) = false /\
   snd (Submit.submit toLowerCase env req db) = db) \/
  exists u tid a t,
    Submit.auth_user req = Some u /\ Submit.body_task_id req = Some tid /\
    Submit.body_answer req = Some a /\ u <> 0 /\ tid <> 0 /\
    tasks db !! tid = Some t /\ guards env u tid db = None /\
    ((Submit.validate toLowerCase (question_type t) a (correct_answer t) = true /\
      (escrow_balance t <? reward_per_completion t) = false /\
      Submit.submit toLowerCase env req db =
        (settled true (Number_ (reward_per_completion t)), award env u tid a t db)) \/
     (Submit.validate toLowerCase (question_type t) a (correct_answer t) = false /\
      Submit.submit toLowerCase env req db =
        (settled false 0, record_wrong env u tid a db))).
Proof.
  destruct (bool_decide (Submit.method req = js "POST")) eqn:Hm;
    [|left; apply submit_malformed; auto].
  destruct (Submit.auth_user req) as [u|] eqn:Hau;
    [|left; apply submit_malformed; auto].
  destruct (Z.eq_dec u 0) as [->|Hu]; [left; apply submit_malformed; auto|].
  destruct (Submit.body_task_id req) as [tid|] eqn:Hbt;
    [|left; apply submit_malformed; auto 6].
  destruct (Z.eq_dec tid 0) as [->|Ht]; [left; apply submit_malformed; auto 6|].
  destruct (Submit.body_answer req) as [a|] eqn:Hba;
    [|left; apply submit_malformed; auto 7].
  rewrite (submit_wellformed env req db u tid a Hm Hau Hu Hbt Ht Hba).
  destruct (guards env u tid db) as [r|] eqn:Hg.
  - left. rewrite (submit_call_rejected toLowerCase env u tid a db r Hu Ht Hg).
    split; [exact (guards_failure _ _ _ _ _ Hg)|reflexivity].
  - destruct (guards_task _ _ _ _ Hg) as [t Hl].
    rewrite (submit_call_passed toLowerCase env u tid a db t Hu Ht Hl Hg).
    destruct (Submit.validate _ _ _ _) eqn:Hv.
    + destruct (_ <? _) eqn:He; [left; split; reflexivity|].
      right. exists u, tid, a, t. repeat split; auto.
    + right. exists u, tid, a, t. repeat split; auto.
Qed.

End OneCall.

Lemma official_outcome req db :
  (success (json (fst (Official.handler req db))) = false /\
   tasks (snd (Official.handler req db)) = tasks db /\
   submissions (snd (Official.handler req db)) = submissions db /\
   users (snd (Official.handler req db)) = users db) \/
  exists id,
    tasks db !! id = None /\
    Official.handler req db =
      (created id,
       mkDB (<[id := official_row req]> (tasks db)) (submissions db) (users db)
            (id + 1)).
Proof.
  unfold Official.handler.
  destruct (negb _); [left; auto|].
  destruct (Official.falsy _); [left; auto|].
  destruct (negb _); [left; auto|].
  destruct (_ || _); [left; auto|].
  unfold Official.insert_task.
  destruct (tasks db !! tasks_id_seq db) eqn:Hl; [left; auto|].
  right. exists (tasks_id_seq db). split; [exact Hl|reflexivity].
Qed.

(** * Beyond the claims: any interleaving of the two routes *)

Lemma award_row env u tid a t db :
  tasks db !! tid = Some t ->
  tasks (award env u tid a t db) !! tid =
  Some (let t1 := set_escrow_balance (escrow_balance t - reward_per_completion t) t in
        if Number_ (max_acceptances t)
           <=? Number_ (correct_count tid
                  (submissions db ++ [awarded_submission env u tid a t]))
        then set_status (js "closed") t1 else t1).
Proof.
  intros Ht. unfold award. cbn [tasks].
  destruct (_ <=? _); rewrite ?lookup_alter_eq, Ht; reflexivity.
Qed.

Lemma filter_none {A} (f : A -> bool) l :
  (forall x, In x l -> f x = false) -> List.filter f l = [].
Proof.
  induction l as [|x l IH]; intros H; [reflexivity|].
  cbn [List.filter]. rewrite (H x) by (left; reflexivity).
  apply IH. intros y Hy. apply H. right. exact Hy.
Qed.

Lemma total_awarded_app l1 l2 :
  total_awarded (l1 ++ l2) = total_awarded l1 + total_awarded l2.
Proof.
  unfold total_awarded.
  induction l1 as [|s l1 IH]; cbn [app fold_right]; [lia|].
  rewrite IH. lia.
Qed.

Lemma paid_snoc id l s :
  paid id (l ++ [s]) = paid id l + (if task_id s =? id then awarded_points s else 0).
Proof.
  unfold paid. rewrite filter_snoc, total_awarded_app.
  destruct (task_id s =? id); cbn; lia.
Qed.

Lemma earned_snoc uid l s :
  earned uid (l ++ [s]) = earned uid l + (if user_id s =? uid then awarded_points s else 0).
Proof.
  unfold earned. rewrite filter_snoc, total_awarded_app.
  destruct (user_id s =? uid); cbn; lia.
Qed.

Section Runs.

Variable toLowerCase : jsstring -> jsstring.

(** What one call of either route does to the tables. *)
Lemma step_shape c db :
  (tasks (step toLowerCase c db) = tasks db /\
   submissions (step toLowerCase c db) = submissions db /\
   users (step toLowerCase c db) = users db) \/
  (exists env u tid a t,
     tasks db !! tid = Some t /\ guards env u tid db = None /\
     (escrow_balance t <? reward_per_completion t) = false /\
     step toLowerCase c db = award env u tid a t db) \/
  (exists env u tid a t,
     tasks db !! tid = Some t /\ guards env u tid db = None /\
     step toLowerCase c db = record_wrong env u tid a db) \/
  (exists req id,
     tasks db !! id = None /\
     step toLowerCase c db =
       mkDB (<[id := official_row req]> (tasks db)) (submissions db) (users db) (id + 1)).
Proof.
  destruct c as [env req|req]; cbn [step].
  - destruct (submit_outcome toLowerCase env req db)
      as [[_ ->]|(u & tid & a & t & _ & _ & _ & _ & _ & Ht & Hg & [(_ & He & E)|(_ & E)])].
    + left. auto.
    + right. left. exists env, u, tid, a, t. rewrite E. auto.
    + right. right. left. exists env, u, tid, a, t. rewrite E. auto.
  - destruct (official_outcome req db) as [(_ & H)|(id & Hn & E)].
    + left. exact H.
    + right. right. right. exists req, id. rewrite E. auto.
Qed.

Lemma run_calls_invariant (P : DB -> Prop) :
  (forall c db, P db -> P (step toLowerCase c db)) ->
  forall cs db, P db -> P (run_calls toLowerCase cs db).
Proof.
  intros Hstep cs. induction cs as [|c cs IH]; intros db Hdb; cbn; auto.
  apply IH, Hstep, Hdb.
Qed.

Lemma run_calls_app cs1 cs2 db :
  run_calls toLowerCase (cs1 ++ cs2) db =
  run_calls toLowerCase cs2 (run_calls toLowerCase cs1 db).
Proof. unfold run_calls. apply fold_left_app. Qed.

Ltac step_cases c db :=
  let E := fresh "E" in
  destruct (step_shape c db)
    as [(Et & Es & Eu)
       |[(env & u & tid & a & t & Ht & Hg & He & E)
        |[(env & u & tid & a & t & Ht & Hg & E)
         |(req & nid & Hn & E)]]];
  [|rewrite E in *; clear E ..].

Lemma escrow_nonneg_call c db :
  escrow_nonneg db -> escrow_nonneg (step toLowerCase c db).
Proof.
  intros Inv id t' Hl. step_cases c db.
  - rewrite Et in Hl. eauto.
  - destruct (Z.eq_dec id tid) as [->|Hne].
    + rewrite (award_row _ _ _ _ _ _ Ht) in Hl. injection Hl as <-.
      apply Z.ltb_ge in He. cbv zeta. destruct (_ <=? _); cbn; lia.
    + rewrite award_other in Hl by assumption. eauto.
  - eauto.
  - cbn [tasks] in Hl. destruct (Z.eq_dec nid id) as [->|Hne].
    + rewrite lookup_insert_eq in Hl. injection Hl as <-. cbn. lia.
    + rewrite lookup_insert_ne in Hl by assumption. eauto.
Qed.

Lemma one_submission_call c db :
  one_submission db -> one_submission (step toLowerCase c db).
Proof.
  destruct c as [env req|req]; cbn [step]; [apply one_submission_step|].
  intros Inv tid uid.
  destruct (official_outcome req db) as [(_ & _ & -> & _)|(id & _ & ->)]; apply Inv.
Qed.

Lemma submissions_have_tasks_call c db :
  submissions_have_tasks db -> submissions_have_tasks (step toLowerCase c db).
Proof.
  intros Inv s Hs. step_cases c db.
  - rewrite Et. rewrite Es in Hs. auto.
  - rewrite award_submissions in Hs. apply in_app_or in Hs as [Hs|[<-|[]]].
    + destruct (Z.eq_dec (task_id s) tid) as [->|Hne].
      * rewrite (award_row _ _ _ _ _ _ Ht). eauto.
      * rewrite award_other by assumption. auto.
    + cbn [awarded_submission task_id]. rewrite (award_row _ _ _ _ _ _ Ht). eauto.
  - cbn [record_wrong submissions tasks] in *.
    apply in_app_or in Hs as [Hs|[<-|[]]]; [auto|].
    cbn [wrong_submission task_id]. rewrite Ht. eauto.
  - cbn [tasks submissions] in *. destruct (Z.eq_dec nid (task_id s)) as [->|Hne].
    + rewrite lookup_insert_eq. eauto.
    + rewrite lookup_insert_ne by assumption. auto.
Qed.

Lemma correct_count_absent db id :
  submissions_have_tasks db -> tasks db !! id = None ->
  correct_count id (submissions db) = 0.
Proof.
  intros Inv Hn. unfold correct_count. rewrite filter_none; [reflexivity|].
  intros s Hs. unfold correct_of.
  destruct (Z.eqb_spec (task_id s) id) as [E|]; [|reflexivity].
  destruct (Inv s Hs) as [t Hl]. congruence.
Qed.

Lemma acceptances_capped_call c db :
  submissions_have_tasks db -> acceptances_capped db ->
  acceptances_capped (step toLowerCase c db).
Proof.
  intros Href Inv. destruct c as [env req|req]; cbn [step];
    [apply acceptances_capped_step; exact Inv|].
  intros id t' Hl.
  destruct (official_outcome req db) as [(_ & Et & Es & _)|(nid & Hn & E)].
  - rewrite Et in Hl. rewrite Es. exact (Inv id t' Hl).
  - rewrite E in *. cbn [snd tasks submissions] in *.
    destruct (Z.eq_dec nid id) as [->|Hne].
    + rewrite lookup_insert_eq in Hl. injection Hl as <-.
      rewrite (correct_count_absent db id Href Hn). split; lia.
    + rewrite lookup_insert_ne in Hl by assumption. exact (Inv id t' Hl).
Qed.

(** What one call does to a task that is in the store. *)
Lemma task_call c db id t0 :
  tasks db !! id = Some t0 ->
  exists t',
    tasks (step toLowerCase c db) !! id = Some t' /\ same_terms t0 t' /\
    escrow_balance t' + paid id (submissions (step toLowerCase c db))
      = escrow_balance t0 + paid id (submissions db) /\
    ((t' = t0 /\
      List.filter (fun s => task_id s =? id) (submissions (step toLowerCase c db))
        = List.filter (fun s => task_id s =? id) (submissions db)) \/
     (status t0 = js "open" /\
      (status t' = js "open" \/ status t' = js "closed") /\
      (escrow_balance t' = escrow_balance t0 \/
       escrow_balance t' = escrow_balance t0 - reward_per_completion t0 /\
       reward_per_completion t0 <= escrow_balance t0))).
Proof.
  intros Hl. step_cases c db.
  - exists t0. rewrite Et, Es. unfold same_terms. auto 20.
  - rewrite award_submissions, paid_snoc, filter_snoc.
    cbn [awarded_submission task_id awarded_points].
    destruct (Z.eq_dec id tid) as [->|Hne].
    + rewrite Hl in Ht. injection Ht as <-.
      rewrite (award_row _ _ _ _ _ _ Hl). eexists. split; [reflexivity|].
      rewrite Z.eqb_refl. cbv zeta. apply Z.ltb_ge in He.
      pose proof (guards_open _ _ _ _ _ Hg Hl) as Ho.
      destruct (_ <=? _); cbn [set_status set_escrow_balance escrow_balance status
                                 reward_per_completion];
        (split; [unfold same_terms; cbn; auto 20|]); (split; [lia|]);
        right; auto.
    + rewrite award_other by assumption. exists t0.
      destruct (Z.eqb_spec tid id); [congruence|].
      rewrite Z.add_0_r, app_nil_r. unfold same_terms. auto 20.
  - cbn [record_wrong submissions tasks]. rewrite paid_snoc, filter_snoc.
    cbn [wrong_submission task_id awarded_points]. exists t0.
    split; [exact Hl|]. split; [unfold same_terms; auto 20|].
    split; [destruct (tid =? id); lia|].
    destruct (Z.eqb_spec tid id) as [->|]; [|left; rewrite app_nil_r; auto].
    right. rewrite Hl in Ht. injection Ht as <-.
    pose proof (guards_open _ _ _ _ _ Hg Hl). auto.
  - cbn [tasks submissions]. exists t0.
    rewrite lookup_insert_ne by congruence. unfold same_terms. auto 20.
Qed.

(** What one call does to the points of a user. *)
Lemma points_call c db uid :
  (fun p => p - earned uid (submissions (step toLowerCase c db)))
    <$> users (step toLowerCase c db) !! uid
  = (fun p => p - earned uid (submissions db)) <$> users db !! uid.
Proof.
  step_cases c db.
  - rewrite Eu, Es. reflexivity.
  - rewrite award_submissions, award_users, earned_snoc.
    cbn [awarded_submission user_id awarded_points].
    destruct (Z.eq_dec u uid) as [->|Hne].
    + rewrite lookup_alter_eq, Z.eqb_refl.
      destruct (users db !! uid); cbn; [f_equal; lia|reflexivity].
    + rewrite lookup_alter_ne by assumption.
      destruct (Z.eqb_spec u uid); [congruence|]. rewrite Z.add_0_r. reflexivity.
  - cbn [record_wrong submissions users]. rewrite earned_snoc.
    cbn [wrong_submission user_id awarded_points].
    destruct (u =? uid); rewrite Z.add_0_r; reflexivity.
  - reflexivity.
Qed.

Lemma submissions_call c db :
  exists l, submissions (step toLowerCase c db) = submissions db ++ l /\
            (length l <= 1)%nat.
Proof.
  step_cases c db.
  - exists []. rewrite Es, app_nil_r. auto.
  - eexists. rewrite award_submissions. split; [reflexivity|cbn; lia].
  - eexists. cbn [record_wrong submissions]. split; [reflexivity|cbn; lia].
  - exists []. cbn [submissions]. rewrite app_nil_r. auto.
Qed.

End Runs.

(** ** The status code of a response of [submit.ts] *)

Lemma guards_status env u tid db r :
  guards env u tid db = Some r ->
  (tasks db !! tid = None /\ r = NotFound) \/
  (is_Some (tasks db !! tid) /\ http_status r = 400 /\ success (json r) = false).
Proof.
  unfold guards. destruct (tasks db !! tid) as [t|]; [|intros [= <-]; auto].
  intros H. right. split; [eauto|].
  revert H.
  repeat (match goal with
          | |- (if ?b then _ else _) = _ -> _ =>
              destruct b; [intros [= <-]; split; reflexivity|]
          end).
  discriminate.
Qed.

Section Status.

Variable toLowerCase : jsstring -> jsstring.

Lemma submit_status env req db :
  let r := fst (Submit.submit toLowerCase env req db) in
  (Submit.method req <> js "POST" /\ r = failure 405 "Method not allowed") \/
  (Submit.method req = js "POST" /\
   (Submit.auth_user req = None \/ Submit.auth_user req = Some 0) /\
   r = failure 401 "Unauthorized") \/
  (Submit.method req = js "POST" /\
   (exists u, Submit.auth_user req = Some u /\ u <> 0) /\
   (Submit.body_task_id req = None \/ Submit.body_task_id req = Some 0 \/
    Submit.body_answer req = None) /\
   r = failure 400 "task_id and answer are required") \/
  (exists u tid a,
     Submit.method req = js "POST" /\
     Submit.auth_user req = Some u /\ u <> 0 /\
     Submit.body_task_id req = Some tid /\ tid <> 0 /\
     Submit.body_answer req = Some a /\
     ((tasks db !! tid = None /\ r = NotFound) \/
      (is_Some (tasks db !! tid) /\ http_status r = 400 /\ success (json r) = false) \/
      (is_Some (tasks db !! tid) /\ http_status r = 200 /\ success (json r) = true))).
Proof.
  cbv zeta.
  destruct (bool_decide_reflect (Submit.method req = js "POST")) as [Hm|Hm].
  2: { left. split; [exact Hm|]. unfold Submit.submit, Submit.handler.
       rewrite (bool_decide_eq_false_2 _ Hm). reflexivity. }
  right.
  assert (Hb : bool_decide (Submit.method req = js "POST") = true)
    by (apply bool_decide_eq_true_2; exact Hm).
  destruct (Submit.auth_user req) as [u|] eqn:Hau.
  2: { left. split; [exact Hm|]. split; [auto|].
       unfold Submit.submit, Submit.handler. rewrite Hb, Hau. reflexivity. }
  destruct (Z.eq_dec u 0) as [->|Hu].
  { left. split; [exact Hm|]. split; [auto|].
    unfold Submit.submit, Submit.handler. rewrite Hb, Hau. reflexivity. }
  right.
  assert (Hshape : forall P : Prop,
            (Submit.body_task_id req = None \/ Submit.body_task_id req = Some 0 \/
             Submit.body_answer req = None) ->
            fst (Submit.submit toLowerCase env req db)
              = failure 400 "task_id and answer are required").
  { intros _ H. unfold Submit.submit, Submit.handler. rewrite Hb, Hau. cbn [negb].
    destruct u; [congruence| |];
      (destruct (Submit.body_task_id req) as [[| |]|];
       destruct (Submit.body_answer req);
       try reflexivity; exfalso; decompose [or] H; discriminate). }
  destruct (Submit.body_task_id req) as [tid|] eqn:Hbt;
    [|left; split; [exact Hm|]; split; [eauto|]; split; [auto|apply (Hshape True); auto]].
  destruct (Z.eq_dec tid 0) as [->|Ht];
    [left; split; [exact Hm|]; split; [eauto|]; split; [auto|apply (Hshape True); auto]|].
  destruct (Submit.body_answer req) as [a|] eqn:Hba;
    [|left; split; [exact Hm|]; split; [eauto|]; split; [auto|apply (Hshape True); auto]].
  right. exists u, tid, a. repeat (split; [assumption || reflexivity|]).
  rewrite (submit_wellformed toLowerCase env req db u tid a Hb Hau Hu Hbt Ht Hba).
  destruct (guards env u tid db) as [r|] eqn:Hg.
  - rewrite (submit_call_rejected toLowerCase env u tid a db r Hu Ht Hg). cbn [fst].
    destruct (guards_status _ _ _ _ _ Hg) as [H|H]; auto.
  - destruct (guards_task _ _ _ _ Hg) as [t Hl].
    rewrite (submit_call_passed toLowerCase env u tid a db t Hu Ht Hl Hg).
    destruct (Submit.validate _ _ _ _); [destruct (_ <? _)|]; cbn [fst];
      rewrite Hl; eauto 10.
Qed.

(** X23: the status code tells why a call of [submit.ts] ended: 405
    exactly for a method other than [POST], whatever the credentials; 401
    exactly for a [POST] without a resolved, non-zero user id, whatever the
    body; 404 exactly for a well-formed call on a task that is not in the
    store; 200 exactly for [success: true]. *)
Theorem X23_status_codes env req db :
  let r := fst (Submit.submit toLowerCase env req db) in
  (http_status r = 405 <-> Submit.method req <> js "POST") /\
  (http_status r = 401 <->
     Submit.method req = js "POST" /\
     (Submit.auth_user req = None \/ Submit.auth_user req = Some 0)) /\
  (http_status r = 404 <->
     Submit.method req = js "POST" /\
     exists u tid,
       Submit.auth_user req = Some u /\ u <> 0 /\
       Submit.body_task_id req = Some tid /\ tid <> 0 /\
       Submit.body_answer req <> None /\ tasks db !! tid = None) /\
  (http_status r = 200 <-> success (json r) = true).
Proof.
  cbv zeta.
  destruct (submit_status env req db)
    as [[Hm ->]|[(Hm & Hau & ->)|[(Hm & (u & Hau & Hu) & Hb & ->)
       |(u & tid & a & Hm & Hau & Hu & Hbt & Ht & Hba & Hcase)]]].
  - cbn [failure http_status json success].
    split; [tauto|]. split; [split; [discriminate|tauto]|].
    split; [split; [discriminate|tauto]|split; discriminate].
  - cbn [failure http_status json success].
    split; [split; [discriminate|tauto]|]. split; [tauto|].
    split; [|split; discriminate]. split; [discriminate|].
    intros (_ & u & tid & Hx & Hu & _). destruct Hau; congruence.
  - cbn [failure http_status json success].
    split; [split; [discriminate|tauto]|].
    split; [split; [discriminate|intros [_ [H|H]]; congruence]|].
    split; [|split; discriminate]. split; [discriminate|].
    intros (_ & u' & tid & _ & _ & Hbt & Ht & Hba & _).
    destruct Hb as [H|[H|H]]; congruence.
  - assert (H405 : forall n, n <> 405 ->
              (n = 405 <-> Submit.method req <> js "POST")) by (intros; tauto).
    assert (H401 : forall n, n <> 401 ->
              (n = 401 <-> Submit.method req = js "POST" /\
                 (Submit.auth_user req = None \/ Submit.auth_user req = Some 0))).
    { intros n Hn. split; [tauto|]. intros [_ [H|H]]; congruence. }
    destruct Hcase as [[Hl ->]|[(Hl & Hs & Hf)|(Hl & Hs & Hf)]].
    + cbn [NotFound failure http_status json success].
      split; [apply H405; discriminate|]. split; [apply H401; discriminate|].
      split; [|split; discriminate]. split; [intros _|reflexivity].
      split; [exact Hm|]. exists u, tid. rewrite Hba.
      repeat (split; [assumption || discriminate|]). exact Hl.
    + rewrite Hs, Hf.
      split; [apply H405; discriminate|]. split; [apply H401; discriminate|].
      split; [|split; discriminate]. split; [discriminate|].
      intros (_ & u' & tid' & _ & _ & Hy & _ & _ & Hz).
      rewrite Hbt in Hy. injection Hy as <-. destruct Hl as [x Hx]. congruence.
    + rewrite Hs, Hf.
      split; [apply H405; discriminate|]. split; [apply H401; discriminate|].
      split; [|tauto]. split; [discriminate|].
      intros (_ & u' & tid' & _ & _ & Hy & _ & _ & Hz).
      rewrite Hbt in Hy. injection Hy as <-. destruct Hl as [x Hx]. congruence.
Qed.

End Status.

(** * Beyond the claims: the properties *)

Section Extras.

Variable toLowerCase : jsstring -> jsstring.

(** X1: whatever the request, a call of [submit.ts] that does not answer
    [success: true] leaves the store exactly as it was: nothing of a
    refused call is ever committed. *)
Theorem X1_refusal_commits_nothing env req db :
  success (json (fst (Submit.submit toLowerCase env req db))) = false ->
  snd (Submit.submit toLowerCase env req db) = db.
Proof.
  intros Hf.
  destruct (submit_outcome toLowerCase env req db)
    as [[_ E]|(u & tid & a & t & _ & _ & _ & _ & _ & _ & _ & [(_ & _ & E)|(_ & E)])];
    [exact E| |]; rewrite E in Hf; discriminate.
Qed.

(** X2: a call that answers [success: true] has appended exactly one
    submission, for the authenticated user, the task and the answer of the
    request, stamped with the database clock; the response repeats its
    [is_correct] and carries [Number] of its [awarded_points]. *)
Theorem X2_success_records_one env req db :
  success (json (fst (Submit.submit toLowerCase env req db))) = true ->
  exists s,
    submissions (snd (Submit.submit toLowerCase env req db)) = submissions db ++ [s] /\
    Submit.auth_user req = Some (user_id s) /\
    Submit.body_task_id req = Some (task_id s) /\
    Submit.body_answer req = Some (answer s) /\
    validated_at s = Submit.sql_now env /\
    fst (Submit.submit toLowerCase env req db)
      = settled (is_correct s) (Number_ (awarded_points s)).
Proof.
  intros Hs.
  destruct (submit_outcome toLowerCase env req db)
    as [[Hf _]|(u & tid & a & t & Hu & Ht & Ha & _ & _ & _ & _ & [(_ & _ & E)|(_ & E)])].
  - congruence.
  - exists (awarded_submission env u tid a t). rewrite E. cbn [fst snd].
    rewrite award_submissions. cbn [awarded_submission user_id task_id answer
      validated_at is_correct awarded_points]. auto 10.
  - exists (wrong_submission env u tid a). rewrite E.
    cbn [fst snd record_wrong submissions wrong_submission user_id task_id answer
      validated_at is_correct awarded_points]. auto 10.
Qed.

(** X3: a call of [submit.ts] reads and writes one task and one user: the
    other tasks and the other users' points are as before, no task or user
    row is created or deleted, and the id sequence is not touched. *)
Theorem X3_call_frame env req db :
  (forall id, Submit.body_task_id req <> Some id ->
     tasks (snd (Submit.submit toLowerCase env req db)) !! id = tasks db !! id) /\
  (forall uid, Submit.auth_user req <> Some uid ->
     users (snd (Submit.submit toLowerCase env req db)) !! uid = users db !! uid) /\
  (forall id, is_Some (tasks (snd (Submit.submit toLowerCase env req db)) !! id)
              <-> is_Some (tasks db !! id)) /\
  (forall uid, is_Some (users (snd (Submit.submit toLowerCase env req db)) !! uid)
               <-> is_Some (users db !! uid)) /\
  tasks_id_seq (snd (Submit.submit toLowerCase env req db)) = tasks_id_seq db.
Proof.
  destruct (submit_outcome toLowerCase env req db)
    as [[_ ->]|(u & tid & a & t & Hu & Ht & Ha & _ & _ & Hl & _ & [(_ & _ & ->)|(_ & ->)])];
    cbn [snd].
  - split; [|split; [|split; [|split]]]; intros; reflexivity || tauto.
  - split; [|split; [|split; [|split]]].
    + intros id Hne. apply award_other. congruence.
    + intros uid Hne. rewrite award_users. apply lookup_alter_ne. congruence.
    + intros id. destruct (Z.eq_dec id tid) as [->|Hne].
      * rewrite (award_row _ _ _ _ _ _ Hl), Hl. split; eauto.
      * rewrite award_other by assumption. tauto.
    + intros uid. rewrite award_users, lookup_alter.
      case_decide; [subst; rewrite fmap_is_Some|]; tauto.
    + reflexivity.
  - split; [|split; [|split; [|split]]]; intros; reflexivity || tauto.
Qed.

(** X4: the creator of a task never gets a submission on it: a call by the
    creator is refused, whatever the method, the answer, the clock and the
    state of the task, and the store is left as it was. *)
Theorem X4_creator_never_submits env req db id t c :
  tasks db !! id = Some t -> creator_id t = Some c ->
  Submit.auth_user req = Some c -> Submit.body_task_id req = Some id ->
  success (json (fst (Submit.submit toLowerCase env req db))) = false /\
  snd (Submit.submit toLowerCase env req db) = db.
Proof.
  intros Hl Hc Hau Hbt.
  destruct (submit_outcome toLowerCase env req db)
    as [H|(u & tid & a & t' & Hu & Ht & _ & Hu0 & _ & Hl' & Hg & _)]; [exact H|].
  exfalso. rewrite Hau in Hu. injection Hu as <-.
  rewrite Hbt in Ht. injection Ht as <-.
  unfold guards in Hg. rewrite Hl, Hc, Z.eqb_refl in Hg.
  destruct (Z.eqb_spec c 0); [congruence|]. cbn [negb andb] in Hg.
  destruct (negb _); [discriminate|].
  destruct (match starts_at t with Some _ => _ | None => _ end); [discriminate|].
  destruct (match ends_at t with Some _ => _ | None => _ end); discriminate.
Qed.

(** X5: under any interleaving of calls of the two routes, no escrow
    balance becomes negative and no (task, user) pair gets a second
    submission, if that is so at the start. *)
Theorem X5_interleaved_escrow_and_uniqueness cs db :
  escrow_nonneg db -> one_submission db ->
  escrow_nonneg (run_calls toLowerCase cs db) /\
  one_submission (run_calls toLowerCase cs db).
Proof.
  intros He Ho.
  apply (run_calls_invariant toLowerCase (fun d => escrow_nonneg d /\ one_submission d));
    [|auto].
  intros c d [H1 H2]. split;
    [apply escrow_nonneg_call|apply one_submission_call]; assumption.
Qed.

(** X6: under any interleaving of calls, every submission is for a task
    that is in the store, if that is so at the start: a submission is only
    recorded for a task that was found, and no task is ever deleted. *)
Theorem X6_submissions_have_tasks cs db :
  submissions_have_tasks db -> submissions_have_tasks (run_calls toLowerCase cs db).
Proof.
  apply run_calls_invariant. apply submissions_have_tasks_call.
Qed.

(** X7: starting from a store without submissions, whatever the tasks it
    holds and the tasks ingested later, a task never has more than
    [max 1 max_acceptances] correct submissions, and it is closed once it
    has one and has reached [max_acceptances]: for [max_acceptances <= 0]
    the first correct answer is still taken, the second never. *)
Theorem X7_acceptances_capped cs db :
  submissions db = [] -> acceptances_capped (run_calls toLowerCase cs db).
Proof.
  intros E.
  apply (run_calls_invariant toLowerCase
           (fun d => submissions_have_tasks d /\ acceptances_capped d)).
  - intros c d [H1 H2]. split;
      [apply submissions_have_tasks_call|apply acceptances_capped_call]; assumption.
  - split.
    + intros s Hs. rewrite E in Hs. destruct Hs.
    + intros id t _. unfold correct_count. rewrite E. cbn. lia.
Qed.

(** X8: a task is never deleted, the columns other than [escrow_balance]
    and [status] keep the values they were inserted with, and the status
    either stays or becomes [closed]. *)
Theorem X8_task_terms_fixed cs db id t :
  tasks db !! id = Some t ->
  exists t',
    tasks (run_calls toLowerCase cs db) !! id = Some t' /\ same_terms t t' /\
    (status t' = status t \/ status t' = js "closed").
Proof.
  intros Hl.
  apply (run_calls_invariant toLowerCase
           (fun d => exists t', tasks d !! id = Some t' /\ same_terms t t' /\
                       (status t' = status t \/ status t' = js "closed")));
    [|exists t; unfold same_terms; auto 20].
  intros c d (t1 & H1 & Hs & Hst).
  destruct (task_call toLowerCase c d id t1 H1) as (t2 & H2 & Hs2 & _ & Hcase).
  exists t2. split; [exact H2|]. split.
  - unfold same_terms in *. intuition congruence.
  - destruct Hcase as [[-> _]|(Ho & [Ho2|Hc2] & _)]; [auto| |auto].
    destruct Hst as [<-|Hc]; [left; congruence|].
    rewrite Hc in Ho. destruct (closed_not_open Ho).
Qed.

(** X9: for every task, the escrow balance plus the points its submissions
    were awarded is constant: each debit of the escrow is matched by the
    [awarded_points] of exactly one submission of that task, and nothing
    else moves the balance. *)
Theorem X9_task_ledger cs db id t :
  tasks db !! id = Some t ->
  exists t',
    tasks (run_calls toLowerCase cs db) !! id = Some t' /\
    escrow_balance t' + paid id (submissions (run_calls toLowerCase cs db))
      = escrow_balance t + paid id (submissions db).
Proof.
  intros Hl.
  apply (run_calls_invariant toLowerCase
           (fun d => exists t', tasks d !! id = Some t' /\
                       escrow_balance t' + paid id (submissions d)
                         = escrow_balance t + paid id (submissions db)));
    [|eauto].
  intros c d (t1 & H1 & E1).
  destruct (task_call toLowerCase c d id t1 H1) as (t2 & H2 & _ & E2 & _).
  exists t2. split; [exact H2|lia].
Qed.

(** X10: if no escrow is negative at the start, then under any
    interleaving of calls the points a task pays out never exceed the
    escrow it held at the start. *)
Theorem X10_paid_within_escrow cs db id t :
  escrow_nonneg db -> tasks db !! id = Some t ->
  paid id (submissions (run_calls toLowerCase cs db)) - paid id (submissions db)
    <= escrow_balance t.
Proof.
  intros He Hl.
  assert (Hend : escrow_nonneg (run_calls toLowerCase cs db))
    by (apply run_calls_invariant; [apply escrow_nonneg_call|exact He]).
  assert (Hled : exists t',
             tasks (run_calls toLowerCase cs db) !! id = Some t' /\
             escrow_balance t' + paid id (submissions (run_calls toLowerCase cs db))
               = escrow_balance t + paid id (submissions db)).
  { apply (run_calls_invariant toLowerCase
             (fun d => exists t', tasks d !! id = Some t' /\
                         escrow_balance t' + paid id (submissions d)
                           = escrow_balance t + paid id (submissions db)));
      [|eauto].
    intros c d (t1 & H1 & E1).
    destruct (task_call toLowerCase c d id t1 H1) as (t2 & H2 & _ & E2 & _).
    exists t2. split; [exact H2|lia]. }
  destruct Hled as (t' & Hl' & E). specialize (Hend id t' Hl'). lia.
Qed.

(** X11: the escrow of a task whose reward is not negative never grows. *)
Theorem X11_escrow_never_grows cs db id t :
  tasks db !! id = Some t -> 0 <= reward_per_completion t ->
  exists t',
    tasks (run_calls toLowerCase cs db) !! id = Some t' /\
    escrow_balance t' <= escrow_balance t.
Proof.
  intros Hl Hr.
  assert (H : exists t', tasks (run_calls toLowerCase cs db) !! id = Some t' /\
                reward_per_completion t' = reward_per_completion t /\
                escrow_balance t' <= escrow_balance t).
  { apply (run_calls_invariant toLowerCase
             (fun d => exists t', tasks d !! id = Some t' /\
                         reward_per_completion t' = reward_per_completion t /\
                         escrow_balance t' <= escrow_balance t));
      [|exists t; auto with zarith].
    intros c d (t1 & H1 & Er & Ee).
    destruct (task_call toLowerCase c d id t1 H1) as (t2 & H2 & Hs & _ & Hcase).
    exists t2. split; [exact H2|]. unfold same_terms in Hs.
    split; [intuition congruence|].
    destruct Hcase as [[-> _]|(_ & _ & [E|[E _]])]; lia. }
  destruct H as (t' & H1 & _ & H2). eauto.
Qed.

(** X12: a task that is not [open] is frozen: under any interleaving of
    calls its row stays as it is and the submissions recorded for it stay
    the same. *)
Theorem X12_closed_task_frozen cs db id t :
  tasks db !! id = Some t -> status t <> js "open" ->
  tasks (run_calls toLowerCase cs db) !! id = Some t /\
  List.filter (fun s => task_id s =? id) (submissions (run_calls toLowerCase cs db))
    = List.filter (fun s => task_id s =? id) (submissions db).
Proof.
  intros Hl Hst.
  apply (run_calls_invariant toLowerCase
           (fun d => tasks d !! id = Some t /\
              List.filter (fun s => task_id s =? id) (submissions d)
                = List.filter (fun s => task_id s =? id) (submissions db)));
    [|auto].
  intros c d [H1 E1].
  destruct (task_call toLowerCase c d id t H1) as (t2 & H2 & _ & _ & Hcase).
  destruct Hcase as [[-> E2]|(Ho & _)]; [|contradiction].
  split; [exact H2|congruence].
Qed.

(** X13: no route creates or deletes a user, and under any interleaving
    of calls the points of a user change by exactly the [awarded_points]
    of the submissions recorded for that user in the meantime. *)
Theorem X13_points_ledger cs db uid :
  users (run_calls toLowerCase cs db) !! uid =
  (fun p => p + (earned uid (submissions (run_calls toLowerCase cs db))
                 - earned uid (submissions db)))
    <$> users db !! uid.
Proof.
  assert (H : (fun p => p - earned uid (submissions (run_calls toLowerCase cs db)))
                <$> users (run_calls toLowerCase cs db) !! uid
              = (fun p => p - earned uid (submissions db)) <$> users db !! uid).
  { apply (run_calls_invariant toLowerCase
             (fun d => (fun p => p - earned uid (submissions d)) <$> users d !! uid
                       = (fun p => p - earned uid (submissions db)) <$> users db !! uid));
      [|reflexivity].
    intros c d E. rewrite points_call. exact E. }
  destruct (users (run_calls toLowerCase cs db) !! uid) as [p'|];
    destruct (users db !! uid) as [p|]; cbn in *; try discriminate; [|reflexivity].
  injection H as H. f_equal. lia.
Qed.

(** X14: the submissions are an append-only log: under any interleaving
    of calls the rows already recorded stay in place, unchanged, and each
    call adds at most one row after them. *)
Theorem X14_submissions_append_only cs db :
  exists l,
    submissions (run_calls toLowerCase cs db) = submissions db ++ l /\
    (length l <= length cs)%nat.
Proof.
  revert db. induction cs as [|c cs IH]; intros db.
  - exists []. cbn. rewrite app_nil_r. auto.
  - cbn [run_calls fold_left]. fold (run_calls toLowerCase cs (step toLowerCase c db)).
    destruct (IH (step toLowerCase c db)) as (l2 & -> & H2).
    destruct (submissions_call toLowerCase c db) as (l1 & -> & H1).
    exists (l1 ++ l2). rewrite <- app_assoc. split; [reflexivity|].
    rewrite length_app. cbn [length]. lia.
Qed.

(** X24: once a call has recorded a submission, right or wrong, no later
    call by the same user on the same task succeeds, whatever happens in
    between and whatever it answers: it is refused and leaves the store
    as it finds it. *)
Theorem X24_one_attempt env req db cs env' req' :
  success (json (fst (Submit.submit toLowerCase env req db))) = true ->
  Submit.auth_user req' = Submit.auth_user req ->
  Submit.body_task_id req' = Submit.body_task_id req ->
  let d := run_calls toLowerCase cs (snd (Submit.submit toLowerCase env req db)) in
  success (json (fst (Submit.submit toLowerCase env' req' d))) = false /\
  snd (Submit.submit toLowerCase env' req' d) = d.
Proof.
  intros Hs Hau Hbt d.
  assert (Hin : exists s, In s (submissions d) /\
                  Submit.auth_user req = Some (user_id s) /\
                  Submit.body_task_id req = Some (task_id s)).
  { destruct (submit_outcome toLowerCase env req db)
      as [[Hf _]|(u & tid & a & t & Hu & Ht & _ & _ & _ & _ & _ & [(_ & _ & E)|(_ & E)])];
      [congruence| |].
    - exists (awarded_submission env u tid a t). split; [|auto].
      apply (run_calls_invariant toLowerCase (fun x => In _ (submissions x))).
      + intros c x Hx. destruct (submissions_call toLowerCase c x) as (l & -> & _).
        apply in_or_app. auto.
      + rewrite E. cbn [snd]. rewrite award_submissions.
        apply in_or_app. right. left. reflexivity.
    - exists (wrong_submission env u tid a). split; [|auto].
      apply (run_calls_invariant toLowerCase (fun x => In _ (submissions x))).
      + intros c x Hx. destruct (submissions_call toLowerCase c x) as (l & -> & _).
        apply in_or_app. auto.
      + rewrite E. cbn [snd record_wrong submissions].
        apply in_or_app. right. left. reflexivity. }
  destruct Hin as (s & Hin & Hsu & Hst).
  destruct (submit_outcome toLowerCase env' req' d)
    as [H|(u & tid & a & t & Hu & Ht & _ & _ & _ & _ & Hg & _)]; [exact H|].
  exfalso. apply guards_fresh in Hg.
  assert (Hf : In s (List.filter (sub_of tid u) (submissions d))).
  { apply filter_In. split; [exact Hin|]. unfold sub_of.
    rewrite Hau, Hsu in Hu. injection Hu as <-.
    rewrite Hbt, Hst in Ht. injection Ht as <-.
    rewrite !Z.eqb_refl. reflexivity. }
  rewrite Hg in Hf. destruct Hf.
Qed.

(** X25: a task whose escrow is below its reward is never written again
    by either route: it keeps its row, so it stays [open], under any
    interleaving of calls. *)
Theorem X25_underfunded_task_stays id t cs db :
  tasks db !! id = Some t ->
  escrow_balance t < reward_per_completion t ->
  tasks (run_calls toLowerCase cs db) !! id = Some t.
Proof.
  intros Hl Hlow.
  apply (run_calls_invariant toLowerCase (fun d => tasks d !! id = Some t)); [|exact Hl].
  intros c d Hd. destruct c as [env req|req]; cbn [step].
  - apply underfunded_step; assumption.
  - destruct (official_outcome req d) as [(_ & Et & _)|(nid & Hn & E)].
    + rewrite Et. exact Hd.
    + rewrite E. cbn [snd tasks]. rewrite lookup_insert_ne by congruence. exact Hd.
Qed.

(** X26: a call answers [success: true] only for a task that is in the
    store, [open], inside its time window at the handler's clock, not
    created by the caller and not yet answered by the caller; the verdict
    it reports is the validator's on the task's stored answer, and a
    correct verdict is reported only when the escrow covered the reward. *)
Theorem X26_success_requires env req db :
  success (json (fst (Submit.submit toLowerCase env req db))) = true ->
  exists u tid a t,
    Submit.auth_user req = Some u /\ Submit.body_task_id req = Some tid /\
    Submit.body_answer req = Some a /\
    tasks db !! tid = Some t /\ status t = js "open" /\
    (forall s, starts_at t = Some s -> s <= Submit.js_now env) /\
    (forall e, ends_at t = Some e -> Submit.js_now env <= e) /\
    creator_id t <> Some u /\
    (forall s, In s (submissions db) -> ~ (task_id s = tid /\ user_id s = u)) /\
    resp_is_correct (json (fst (Submit.submit toLowerCase env req db)))
      = Some (Submit.validate toLowerCase (question_type t) a (correct_answer t)) /\
    (Submit.validate toLowerCase (question_type t) a (correct_answer t) = true ->
     reward_per_completion t <= escrow_balance t).
Proof.
  intros Hs.
  destruct (submit_outcome toLowerCase env req db)
    as [[Hf _]|(u & tid & a & t & Hu & Ht & Ha & Hu0 & _ & Hl & Hg & Hcase)];
    [congruence|].
  exists u, tid, a, t. repeat (split; [assumption|]).
  split; [exact (guards_open _ _ _ _ _ Hg Hl)|].
  pose proof (guards_fresh _ _ _ _ Hg) as Hfresh.
  unfold guards in Hg. rewrite Hl in Hg.
  destruct (negb _); [discriminate|].
  assert (Hstart : forall s, starts_at t = Some s -> s <= Submit.js_now env).
  { intros s Es. rewrite Es in Hg.
    destruct (Z.ltb_spec (Submit.js_now env) s); [discriminate|assumption]. }
  destruct (match starts_at t with Some _ => _ | None => _ end); [discriminate|].
  assert (Hend : forall e, ends_at t = Some e -> Submit.js_now env <= e).
  { intros e Ee. rewrite Ee in Hg.
    destruct (Z.ltb_spec e (Submit.js_now env)); [discriminate|assumption]. }
  destruct (match ends_at t with Some _ => _ | None => _ end); [discriminate|].
  assert (Hcr : creator_id t <> Some u).
  { intros Hc. rewrite Hc, Z.eqb_refl in Hg.
    destruct (Z.eqb_spec u 0); [congruence|discriminate]. }
  assert (Hnew : forall s, In s (submissions db) ->
                   ~ (task_id s = tid /\ user_id s = u)).
  { intros s Hin [E1 E2].
    assert (Hf : In s (List.filter (sub_of tid u) (submissions db))).
    { apply filter_In. split; [exact Hin|].
      unfold sub_of. rewrite E1, E2, !Z.eqb_refl. reflexivity. }
    rewrite Hfresh in Hf. destruct Hf. }
  repeat (split; [assumption|]).
  destruct Hcase as [(Hv & He & E)|(Hv & E)]; rewrite E, Hv; cbn [fst settled json
    resp_is_correct].
  - split; [reflexivity|]. intros _. apply Z.ltb_ge. exact He.
  - split; [reflexivity|]. discriminate.
Qed.

End Extras.

(** ** The answer check *)

Lemma trim_padding l s r :
  forallb isWhiteSpace l = true -> forallb isWhiteSpace r = true ->
  trim (l ++ s ++ r) = trim s.
Proof.
  intros Hl Hr. destruct (trim_trimmed s) as (l0 & r0 & E & Hl0 & Hr0 & Hs & He).
  remember (trim s) as t eqn:Et. clear Et. subst s.
  apply trimmed_trim. exists (l ++ l0), (r0 ++ r).
  rewrite !forallb_app, Hl, Hl0, Hr, Hr0. repeat rewrite <- app_assoc. auto.
Qed.

Section Validator.

Variable toLowerCase : jsstring -> jsstring.

(** X15: whitespace around the submitted answer or around the stored
    answer never changes the verdict, for any question type; an answer of
    whitespace only is judged as the empty answer. *)
Theorem X15_validate_ignores_padding qtype l1 a r1 l2 c r2 :
  forallb isWhiteSpace l1 = true -> forallb isWhiteSpace r1 = true ->
  forallb isWhiteSpace l2 = true -> forallb isWhiteSpace r2 = true ->
  Submit.validate toLowerCase qtype (l1 ++ a ++ r1) (l2 ++ c ++ r2)
  = Submit.validate toLowerCase qtype a c.
Proof.
  intros H1 H2 H3 H4. unfold Submit.validate.
  rewrite !trim_padding by assumption. reflexivity.
Qed.

(** X16: for each question type the check is an equivalence between
    strings: the stored answer itself is accepted, the verdict does not
    depend on which of the two strings is the stored one, and two answers
    accepted for the same stored answer are accepted for each other. *)
Theorem X16_validate_equivalence qtype a b c :
  Submit.validate toLowerCase qtype a a = true /\
  Submit.validate toLowerCase qtype a b = Submit.validate toLowerCase qtype b a /\
  (Submit.validate toLowerCase qtype a c = true ->
   Submit.validate toLowerCase qtype b c = true ->
   Submit.validate toLowerCase qtype a b = true).
Proof.
  unfold Submit.validate. destruct (bool_decide (qtype = js "mcq")).
  - split; [apply bool_decide_eq_true_2; reflexivity|]. split.
    + apply bool_decide_ext. split; congruence.
    + rewrite !bool_decide_eq_true. congruence.
  - split; [apply bool_decide_eq_true_2; reflexivity|]. split.
    + apply bool_decide_ext. split; congruence.
    + rewrite !bool_decide_eq_true. congruence.
Qed.

(** X17: every question type other than [mcq] is checked as [short] is,
    and an answer accepted under [mcq] is accepted under every type. *)
Theorem X17_validate_types qtype a c :
  (qtype <> js "mcq" ->
   Submit.validate toLowerCase qtype a c = Submit.validate toLowerCase (js "short") a c) /\
  (Submit.validate toLowerCase (js "mcq") a c = true ->
   Submit.validate toLowerCase qtype a c = true).
Proof.
  unfold Submit.validate. split.
  - intros Hq. rewrite (bool_decide_eq_false_2 _ Hq).
    rewrite (bool_decide_eq_false_2 (js "short" = js "mcq")) by discriminate.
    reflexivity.
  - rewrite (bool_decide_eq_true_2 (js "mcq" = js "mcq")) by reflexivity.
    rewrite bool_decide_eq_true. intros E.
    destruct (bool_decide (qtype = js "mcq")); apply bool_decide_eq_true_2; congruence.
Qed.

End Validator.

(** ** The bearer header *)

Lemma split_space_cons s : exists p ps, split_space s = p :: ps.
Proof.
  induction s as [|c s (p & ps & E)]; cbn [split_space]; [eauto|].
  destruct (c =? 32)%N; [eauto|]. rewrite E. eauto.
Qed.

Lemma split_space_whole s : no_space s = true -> split_space s = [s].
Proof.
  induction s as [|c s IH]; [reflexivity|].
  cbn [no_space forallb split_space]. intros [Hc Hs]%andb_true_iff.
  apply negb_true_iff in Hc. rewrite Hc. fold (no_space s) in Hs.
  rewrite (IH Hs). reflexivity.
Qed.

Lemma split_space_app a r :
  no_space a = true -> split_space (a ++ 32%N :: r) = a :: split_space r.
Proof.
  induction a as [|c a IH]; [reflexivity|].
  cbn [no_space forallb app split_space]. intros [Hc Ha]%andb_true_iff.
  apply negb_true_iff in Hc. rewrite Hc. fold (no_space a) in Ha.
  rewrite (IH Ha). reflexivity.
Qed.

Lemma join_split s : join_space (split_space s) = s.
Proof.
  induction s as [|c s IH]; [reflexivity|]. cbn [split_space].
  destruct (split_space_cons s) as (p & ps & E). rewrite E in *.
  destruct (N.eqb_spec c 32) as [->|Hc].
  - cbn [join_space app]. f_equal. exact IH.
  - destruct ps; cbn [join_space app] in *; congruence.
Qed.

Lemma split_space_pieces s : Forall (fun p => no_space p = true) (split_space s).
Proof.
  induction s as [|c s IH]; cbn [split_space]; [repeat constructor|].
  destruct (N.eqb_spec c 32) as [->|Hc]; [constructor; [reflexivity|exact IH]|].
  destruct (split_space_cons s) as (p & ps & E). rewrite E in *.
  inversion IH as [|? ? Hp Hps]; subst. constructor; [|exact Hps].
  cbn [no_space forallb]. apply N.eqb_neq in Hc. rewrite Hc. exact Hp.
Qed.

Lemma split_space_length s : length (split_space s) = S (spaces s).
Proof.
  unfold spaces. induction s as [|c s IH]; [reflexivity|].
  cbn [split_space List.filter]. destruct (c =? 32)%N; cbn [length]; [congruence|].
  destruct (split_space_cons s) as (p & ps & E). rewrite E in *. exact IH.
Qed.

Lemma split_space_two s a b :
  split_space s = [a; b] <->
  s = a ++ 32%N :: b /\ no_space a = true /\ no_space b = true.
Proof.
  split.
  - intros E. pose proof (join_split s) as J. pose proof (split_space_pieces s) as P.
    rewrite E in J, P. cbn [join_space] in J.
    inversion P as [|? ? Ha P']; subst. inversion P' as [|? ? Hb _]; subst. auto.
  - intros (-> & Ha & Hb). rewrite (split_space_app a b Ha), (split_space_whole b Hb).
    reflexivity.
Qed.

(** X18: [join(' ')] undoes [split(' ')]; the pieces contain no space and
    are one more than the spaces of the string. *)
Theorem X18_split_join s :
  join_space (split_space s) = s /\
  Forall (fun p => no_space p = true) (split_space s) /\
  length (split_space s) = S (spaces s).
Proof.
  split; [apply join_split|].
  split; [apply split_space_pieces|apply split_space_length].
Qed.

Section Bearer.

Variables (Id Num : Type).
Variable getUser : jsstring -> option Id.
Variable NumberOf : Id -> Num.

(** X19: [getUserIdFromAuthHeader] resolves a header exactly when it is
    made of two space-free pieces around a single space and the token
    service knows the second piece; the first piece is not looked at, so
    any scheme word, or none, is taken as well as [Bearer]. *)
Theorem X19_auth_header header n :
  getUserIdFromAuthHeader Id Num getUser NumberOf header = Some n <->
  exists scheme token id,
    header = Some (scheme ++ 32%N :: token) /\
    no_space scheme = true /\ no_space token = true /\
    getUser token = Some id /\ n = NumberOf id.
Proof.
  unfold getUserIdFromAuthHeader. split.
  - destruct header as [[|c h]|]; [discriminate| |discriminate].
    destruct (split_space (c :: h)) as [|a [|b [|x l]]] eqn:E; cbn [length Nat.eqb negb nth];
      try discriminate.
    destruct (getUser b) as [id|] eqn:G; [|discriminate]. intros [= <-].
    apply split_space_two in E as (E & Ha & Hb). exists a, b, id. rewrite E. auto.
  - intros (scheme & token & id & -> & Hs & Ht & G & ->).
    assert (E : split_space (scheme ++ 32%N :: token) = [scheme; token])
      by (apply split_space_two; auto).
    destruct (scheme ++ 32%N :: token) as [|c h] eqn:Eh;
      [destruct scheme; discriminate|].
    rewrite E. cbn [length Nat.eqb negb nth]. rewrite G. reflexivity.
Qed.

End Bearer.

(** ** The ingestion route *)

Lemma falsy_default s : Official.falsy s = false -> s = Some (default [] s) /\ default [] s <> [].
Proof. destruct s as [[|c r]|]; cbn; [discriminate| |discriminate]. intros _. split; congruence. Qed.

Lemma official_accepted req db id db' :
  Official.handler req db = (created id, db') ->
  Official.falsy (Official.question req) = false /\
  Official.falsy (Official.question_type req) = false /\
  Official.falsy (Official.correct_answer req) = false.
Proof.
  unfold Official.handler.
  destruct (negb _); [discriminate|].
  destruct (Official.falsy (Official.ADMIN_SECRET req)); [discriminate|].
  destruct (negb _); [discriminate|].
  destruct (Official.falsy (Official.question req)); [discriminate|].
  destruct (Official.falsy (Official.question_type req)); [discriminate|].
  destruct (Official.falsy (Official.correct_answer req)); [discriminate|].
  auto.
Qed.

(** X20: a request that is not a [POST], or comes while no admin secret is
    configured, or does not carry the configured secret in
    [x-admin-secret], or lacks one of [question], [question_type] and
    [correct_answer], is refused and leaves the store as it was.  With no
    (or an empty) secret configured this holds for an absent or empty
    header too. *)
Theorem X20_official_refusals req db :
  Official.method req <> js "POST" \/
  Official.falsy (Official.ADMIN_SECRET req) = true \/
  Official.x_admin_secret req <> Official.ADMIN_SECRET req \/
  Official.falsy (Official.question req) = true \/
  Official.falsy (Official.question_type req) = true \/
  Official.falsy (Official.correct_answer req) = true ->
  success (json (fst (Official.handler req db))) = false /\
  snd (Official.handler req db) = db.
Proof.
  intros H. unfold Official.handler.
  destruct (bool_decide_reflect (Official.method req = js "POST")) as [Hm|Hm];
    cbn [negb]; [|auto].
  destruct (Official.falsy (Official.ADMIN_SECRET req)) eqn:Hs; [auto|].
  destruct (bool_decide_reflect
              (Official.x_admin_secret req = Official.ADMIN_SECRET req)) as [Hp|Hp];
    cbn [negb]; [|auto].
  destruct (Official.falsy (Official.question req)) eqn:H1; [auto|].
  destruct (Official.falsy (Official.question_type req)) eqn:H2; [auto|].
  destruct (Official.falsy (Official.correct_answer req)) eqn:H3; [auto|].
  exfalso. decompose [or] H; congruence.
Qed.

(** X21: an accepted request has stored, under an id that was free, a
    task with the [question], [question_type], [correct_answer],
    [starts_at] and [ends_at] of the request, the three texts non-empty,
    with [choices] the [JSON.stringify] text of the request's value when
    that value is truthy and NULL when it is falsy or absent, type
    [official], no creator, cost, fee and escrow 0; every other task, the
    submissions and the users are as before. *)
Theorem X21_official_round_trip req db id db' :
  Official.handler req db = (created id, db') ->
  tasks db !! id = None /\
  (exists t,
     tasks db' !! id = Some t /\
     Official.question req = Some (question t) /\ question t <> [] /\
     Official.question_type req = Some (question_type t) /\ question_type t <> [] /\
     Official.correct_answer req = Some (correct_answer t) /\ correct_answer t <> [] /\
     choices t =
       match Official.choices req with
       | Some v => if Official.truthy v then Some (Official.stringified v) else None
       | None => None
       end /\
     starts_at t = Official.starts_at req /\ ends_at t = Official.ends_at req /\
     type t = js "official" /\ creator_id t = None /\
     cost t = 0 /\ fee t = 0 /\ escrow_balance t = 0) /\
  (forall id', id' <> id -> tasks db' !! id' = tasks db !! id') /\
  submissions db' = submissions db /\ users db' = users db.
Proof.
  intros H.
  pose proof (official_accepted req db id db' H) as Hf.
  destruct Hf as (H1 & H2 & H3).
  destruct (falsy_default _ H1) as [E1 N1].
  destruct (falsy_default _ H2) as [E2 N2].
  destruct (falsy_default _ H3) as [E3 N3].
  destruct (official_outcome req db) as [(Hx & _)|(id0 & Hn & E)];
    [rewrite H in Hx; discriminate|].
  rewrite H in E. injection E as -> ->. cbn [tasks submissions users].
  split; [exact Hn|]. split; [|split; [|auto]].
  - exists (official_row req). rewrite lookup_insert_eq.
    unfold official_row. cbn. auto 20.
  - intros id' Hne. apply lookup_insert_ne. congruence.
Qed.

(** ** Ingestion, then a submission *)

Section Compose.

Variable toLowerCase : jsstring -> jsstring.

Lemma no_submission_yet db id u :
  submissions_have_tasks db -> tasks db !! id = None ->
  List.filter (sub_of id u) (submissions db) = [].
Proof.
  intros Href Hn. apply filter_none. intros s Hs. unfold sub_of.
  destruct (Z.eqb_spec (task_id s) id) as [E|]; [|reflexivity].
  destruct (Href s Hs) as [t Hl]. congruence.
Qed.

(** X22: a task ingested with the defaults (reward 0, one acceptance, no
    time window) takes the first correct answer of any user, whatever the
    clock: the response is [{is_correct: true, awarded_points: 0}], one
    submission is recorded, the task is closed with escrow 0, and no
    user's points change. *)
Theorem X22_default_task_first_answer req db id db' env u a :
  Official.handler req db = (created id, db') ->
  Official.reward_per_completion req = None ->
  Official.max_acceptances req = None ->
  Official.starts_at req = None -> Official.ends_at req = None ->
  submissions_have_tasks db ->
  u <> 0 -> id <> 0 ->
  Submit.validate toLowerCase (default [] (Official.question_type req)) a
    (default [] (Official.correct_answer req)) = true ->
  exists db'',
    submit_call toLowerCase env u id a db' = (settled true 0, db'') /\
    submissions db'' = submissions db ++ [mkSubmission id u a true 0 (Submit.sql_now env)] /\
    (exists t, tasks db'' !! id = Some t /\ status t = js "closed" /\
               escrow_balance t = 0) /\
    (forall v, users db'' !! v = users db !! v).
Proof.
  intros H Hr Hm Hs He Href Hu Hid Hv.
  destruct (official_outcome req db) as [(Hx & _)|(id0 & Hn & E)];
    [rewrite H in Hx; discriminate|].
  rewrite H in E. injection E as <- ->.
  set (db' := mkDB (<[id := official_row req]> (tasks db)) (submissions db)
                   (users db) (id + 1)).
  assert (Hl : tasks db' !! id = Some (official_row req))
    by (apply lookup_insert_eq).
  assert (Hg : guards env u id db' = None).
  { unfold guards. rewrite Hl.
    change (status (official_row req)) with (js "open").
    change (starts_at (official_row req)) with (Official.starts_at req).
    change (ends_at (official_row req)) with (Official.ends_at req).
    change (creator_id (official_row req)) with (@None Z).
    rewrite Hs, He.
    change (negb (bool_decide (js "open" = js "open"))) with false. cbv iota.
    change (submissions db') with (submissions db).
    rewrite (no_submission_yet db id u Href Hn). reflexivity. }
  assert (Eq : question_type (official_row req)
               = default [] (Official.question_type req)) by reflexivity.
  assert (Ec : correct_answer (official_row req)
               = default [] (Official.correct_answer req)) by reflexivity.
  assert (Ee : escrow_balance (official_row req) = 0) by reflexivity.
  assert (E0 : reward_per_completion (official_row req) = 0)
    by (unfold official_row; cbn; rewrite Hr; reflexivity).
  assert (Em : max_acceptances (official_row req) = 1)
    by (unfold official_row; cbn; rewrite Hm; reflexivity).
  rewrite (submit_call_passed toLowerCase env u id a db' _ Hu Hid Hl Hg).
  rewrite Eq, Ec, Hv, Ee, E0. change (0 <? 0) with false. cbv iota.
  eexists. split; [reflexivity|]. split; [|split].
  - rewrite award_submissions. unfold awarded_submission. rewrite E0. reflexivity.
  - assert (Hcnt : correct_count id
                     (submissions db' ++ [awarded_submission env u id a (official_row req)])
                   = 1).
    { rewrite correct_count_snoc. change (submissions db') with (submissions db).
      rewrite (correct_count_absent db id Href Hn).
      unfold correct_of, awarded_submission. cbn [task_id is_correct].
      rewrite Z.eqb_refl. reflexivity. }
    rewrite (award_row _ _ _ _ _ _ Hl). cbv zeta. rewrite Hcnt, Em.
    change (Number_ 1 <=? Number_ 1) with true. cbv iota.
    eexists. split; [reflexivity|]. split; [reflexivity|].
    cbn [set_status set_escrow_balance escrow_balance]. rewrite Ee, E0. reflexivity.
  - intros v. rewrite award_users. change (users db') with (users db).
    rewrite lookup_alter, E0.
    case_decide; [subst|reflexivity].
    destruct (users db !! v); cbn; [f_equal; lia|reflexivity].
Qed.

End Compose.

(** ** The further properties on concrete stores *)

Lemma no_submissions_have_tasks db : submissions db = [] -> submissions_have_tasks db.
Proof. intros E s Hs. rewrite E in Hs. destruct Hs. Qed.

Lemma taken_lookup : tasks taken_db !! 1 = Some taken_task.
Proof. vm_compute. reflexivity. Qed.

Lemma default_created :
  Official.handler default_request scenario_db = (created 2, default_db).
Proof. vm_compute. reflexivity. Qed.

Lemma X1_witness :
  snd (Submit.submit ascii_toLowerCase noon (call 4 1 "B") drained_db) = drained_db.
Proof.
  apply (X1_refusal_commits_nothing ascii_toLowerCase noon (call 4 1 "B") drained_db).
  vm_compute. reflexivity.
Defined.

Lemma X2_witness :
  exists s,
    submissions (snd (Submit.submit ascii_toLowerCase noon (call 2 1 "B") scenario_db))
      = submissions scenario_db ++ [s] /\
    Submit.auth_user (call 2 1 "B") = Some (user_id s) /\
    Submit.body_task_id (call 2 1 "B") = Some (task_id s) /\
    Submit.body_answer (call 2 1 "B") = Some (answer s) /\
    validated_at s = Submit.sql_now noon /\
    fst (Submit.submit ascii_toLowerCase noon (call 2 1 "B") scenario_db)
      = settled (is_correct s) (Number_ (awarded_points s)).
Proof.
  apply (X2_success_records_one ascii_toLowerCase noon (call 2 1 "B") scenario_db).
  vm_compute. reflexivity.
Defined.

Lemma X3_witness :
  tasks (snd (Submit.submit ascii_toLowerCase noon (call 2 1 "B") ingested_db)) !! 2
    = tasks ingested_db !! 2 /\
  users (snd (Submit.submit ascii_toLowerCase noon (call 2 1 "B") ingested_db)) !! 3
    = users ingested_db !! 3.
Proof.
  destruct (X3_call_frame ascii_toLowerCase noon (call 2 1 "B") ingested_db)
    as (Ht & Hu & _).
  split; [apply Ht|apply Hu]; discriminate.
Defined.

Lemma X4_witness :
  success (json (fst (Submit.submit ascii_toLowerCase noon (call 7 1 "B") scenario_db)))
    = false /\
  snd (Submit.submit ascii_toLowerCase noon (call 7 1 "B") scenario_db) = scenario_db.
Proof.
  apply (X4_creator_never_submits ascii_toLowerCase noon (call 7 1 "B") scenario_db 1
           (demo_task "mcq" " B " 10 5 25) 7).
  - exact scenario_lookup.
  - reflexivity.
  - reflexivity.
  - reflexivity.
Defined.

Lemma X5_witness :
  escrow_nonneg (run_calls ascii_toLowerCase mixed_calls scenario_db) /\
  one_submission (run_calls ascii_toLowerCase mixed_calls scenario_db).
Proof.
  apply (X5_interleaved_escrow_and_uniqueness ascii_toLowerCase mixed_calls scenario_db).
  - apply demo_escrow_nonneg. cbn. lia.
  - apply fresh_one_submission. reflexivity.
Defined.

Lemma X6_witness :
  submissions_have_tasks (run_calls ascii_toLowerCase mixed_calls scenario_db).
Proof.
  apply (X6_submissions_have_tasks ascii_toLowerCase mixed_calls scenario_db).
  apply no_submissions_have_tasks. reflexivity.
Defined.

Lemma X7_witness :
  acceptances_capped (run_calls ascii_toLowerCase zero_calls scenario_db) /\
  max_acceptances <$> tasks (run_calls ascii_toLowerCase zero_calls scenario_db) !! 2
    = Some 0 /\
  correct_count 2 (submissions (run_calls ascii_toLowerCase zero_calls scenario_db)) = 1.
Proof.
  split.
  - apply (X7_acceptances_capped ascii_toLowerCase zero_calls scenario_db).
    reflexivity.
  - split; vm_compute; reflexivity.
Defined.

Lemma X8_witness :
  exists t',
    tasks (run_calls ascii_toLowerCase mixed_calls scenario_db) !! 1 = Some t' /\
    same_terms (demo_task "mcq" " B " 10 5 25) t' /\
    (status t' = js "open" \/ status t' = js "closed").
Proof.
  exact (X8_task_terms_fixed ascii_toLowerCase mixed_calls scenario_db 1
           (demo_task "mcq" " B " 10 5 25) scenario_lookup).
Defined.

Lemma X9_witness :
  exists t',
    tasks (run_calls ascii_toLowerCase mixed_calls scenario_db) !! 1 = Some t' /\
    escrow_balance t' + paid 1 (submissions (run_calls ascii_toLowerCase mixed_calls scenario_db))
      = 25 + paid 1 (submissions scenario_db).
Proof.
  exact (X9_task_ledger ascii_toLowerCase mixed_calls scenario_db 1
           (demo_task "mcq" " B " 10 5 25) scenario_lookup).
Defined.

Lemma X10_witness :
  paid 1 (submissions (run_calls ascii_toLowerCase mixed_calls scenario_db))
    - paid 1 (submissions scenario_db) <= 25.
Proof.
  apply (X10_paid_within_escrow ascii_toLowerCase mixed_calls scenario_db 1
           (demo_task "mcq" " B " 10 5 25)).
  - apply demo_escrow_nonneg. cbn. lia.
  - exact scenario_lookup.
Defined.

Lemma X11_witness :
  exists t',
    tasks (run_calls ascii_toLowerCase mixed_calls scenario_db) !! 1 = Some t' /\
    escrow_balance t' <= 25.
Proof.
  apply (X11_escrow_never_grows ascii_toLowerCase mixed_calls scenario_db 1
           (demo_task "mcq" " B " 10 5 25)).
  - exact scenario_lookup.
  - cbn. lia.
Defined.

Lemma X12_witness :
  tasks (run_calls ascii_toLowerCase mixed_calls taken_db) !! 1 = Some taken_task /\
  List.filter (fun s => task_id s =? 1)
    (submissions (run_calls ascii_toLowerCase mixed_calls taken_db))
  = List.filter (fun s => task_id s =? 1) (submissions taken_db).
Proof.
  apply (X12_closed_task_frozen ascii_toLowerCase mixed_calls taken_db 1 taken_task).
  - exact taken_lookup.
  - discriminate.
Defined.

Lemma X15_witness :
  Submit.validate ascii_toLowerCase (js "short")
    (js "  " ++ js "paris" ++ js " ") ([] ++ js "Paris" ++ [9%N; 10%N])
  = Submit.validate ascii_toLowerCase (js "short") (js "paris") (js "Paris").
Proof.
  apply (X15_validate_ignores_padding ascii_toLowerCase (js "short")
           (js "  ") (js "paris") (js " ") [] (js "Paris") [9%N; 10%N]);
    reflexivity.
Defined.

Lemma X17_witness :
  Submit.validate ascii_toLowerCase (js "essay") (js "paris") (js "Paris")
  = Submit.validate ascii_toLowerCase (js "short") (js "paris") (js "Paris").
Proof.
  apply (proj1 (X17_validate_types ascii_toLowerCase (js "essay") (js "paris") (js "Paris"))).
  discriminate.
Defined.

Lemma X19_witness :
  getUserIdFromAuthHeader Z Z demo_getUser Number_
    (Some (js "Basic" ++ 32%N :: js "tok42")) = Some 42.
Proof.
  apply (proj2 (X19_auth_header Z Z demo_getUser Number_
                  (Some (js "Basic" ++ 32%N :: js "tok42")) 42)).
  exists (js "Basic"), (js "tok42"), 42. repeat split.
Defined.

Lemma X20_witness :
  success (json (fst (Official.handler forged_request scenario_db))) = false /\
  snd (Official.handler forged_request scenario_db) = scenario_db.
Proof.
  apply (X20_official_refusals forged_request scenario_db).
  right. right. left. discriminate.
Defined.

Lemma falsy_choices_created :
  Official.handler falsy_choices_request scenario_db = (created 2, falsy_choices_db).
Proof. vm_compute. reflexivity. Qed.

Lemma X21_witness :
  tasks scenario_db !! 2 = None /\
  (exists t,
     tasks falsy_choices_db !! 2 = Some t /\
     Some (js "Capital of France?") = Some (question t) /\ question t <> [] /\
     Some (js "short") = Some (question_type t) /\ question_type t <> [] /\
     Some (js "Paris") = Some (correct_answer t) /\ correct_answer t <> [] /\
     choices t = None /\ starts_at t = None /\ ends_at t = None /\
     type t = js "official" /\ creator_id t = None /\
     cost t = 0 /\ fee t = 0 /\ escrow_balance t = 0) /\
  (forall id', id' <> 2 -> tasks falsy_choices_db !! id' = tasks scenario_db !! id') /\
  submissions falsy_choices_db = submissions scenario_db /\
  users falsy_choices_db = users scenario_db.
Proof.
  exact (X21_official_round_trip falsy_choices_request scenario_db 2
           falsy_choices_db falsy_choices_created).
Defined.

Lemma X22_witness :
  exists db'',
    submit_call ascii_toLowerCase noon 3 2 (js " PARIS") default_db
      = (settled true 0, db'') /\
    submissions db'' = submissions scenario_db ++ [mkSubmission 2 3 (js " PARIS") true 0 1000] /\
    (exists t, tasks db'' !! 2 = Some t /\ status t = js "closed" /\
               escrow_balance t = 0) /\
    (forall v, users db'' !! v = users scenario_db !! v).
Proof.
  apply (X22_default_task_first_answer ascii_toLowerCase default_request scenario_db 2
           default_db noon 3 (js " PARIS") default_created);
    try reflexivity; try discriminate.
  apply no_submissions_have_tasks. reflexivity.
Defined.

Lemma X24_witness :
  success (json (fst (Submit.submit ascii_toLowerCase noon (call 2 1 "B")
     (run_calls ascii_toLowerCase mixed_calls
        (snd (Submit.submit ascii_toLowerCase noon (call 2 1 "C") scenario_db))))))
    = false.
Proof.
  apply (X24_one_attempt ascii_toLowerCase noon (call 2 1 "C") scenario_db mixed_calls
           noon (call 2 1 "B")).
  - vm_compute. reflexivity.
  - reflexivity.
  - reflexivity.
Defined.

Lemma X25_witness :
  tasks (run_calls ascii_toLowerCase mixed_calls drained_db) !! 1 = Some drained_task.
Proof.
  apply (X25_underfunded_task_stays ascii_toLowerCase 1 drained_task mixed_calls drained_db).
  - exact drained_lookup.
  - reflexivity.
Defined.

Lemma X26_witness :
  exists u tid a t,
    Submit.auth_user (call 2 1 "B") = Some u /\
    Submit.body_task_id (call 2 1 "B") = Some tid /\
    Submit.body_answer (call 2 1 "B") = Some a /\
    tasks scenario_db !! tid = Some t /\ status t = js "open" /\
    (forall s, starts_at t = Some s -> s <= Submit.js_now noon) /\
    (forall e, ends_at t = Some e -> Submit.js_now noon <= e) /\
    creator_id t <> Some u /\
    (forall s, In s (submissions scenario_db) -> ~ (task_id s = tid /\ user_id s = u)) /\
    resp_is_correct
      (json (fst (Submit.submit ascii_toLowerCase noon (call 2 1 "B") scenario_db)))
      = Some (Submit.validate ascii_toLowerCase (question_type t) a (correct_answer t)) /\
    (Submit.validate ascii_toLowerCase (question_type t) a (correct_answer t) = true ->
     reward_per_completion t <= escrow_balance t).
Proof.
  apply (X26_success_requires ascii_toLowerCase noon (call 2 1 "B") scenario_db).
  vm_compute. reflexivity.
Defined.
